(** * Dynamic Test Identifier and Runner: the test-relevance engine

    A shallow embedding of the two analysis implementations of the
    repository:

    - [TestAnalysisService] (src/background/services, the modular service):
      [identifyTests] and its private helpers;
    - [TestAnalyzer] (the background service worker): [findExistingTests],
      [identifyRelevantTests], [removeDuplicateTests], [analyzeCoverage],
      [globToRegex];
    - [FILE_EXTENSIONS] of shared/constants/patterns.js and
      [saveToHistory] of the background controller.

    Conventions of the embedding.
    - JavaScript strings are [string]; paths are ASCII, and [toLowerCase]
      folds the letters A-Z only.
    - An absent (undefined) object field is [None]; so is the result of
      a call that throws.
    - Numbers that the code only counts, adds and compares are in [Z].
      Quotients are computed exactly in [Q] and [Math_round] is the nearest
      integer with ties upwards; IEEE rounding of the quotient is not
      modelled.
    - A regular expression is parsed from the text that the glob
      translation produces, and matched by backtracking. *)

From Stdlib Require Import String Ascii List ZArith QArith Qround Bool Lia.
From Stdlib Require Import Permutation Sorted.
Import ListNotations.

Local Open Scope string_scope.

(* ================================================================== *)
(** ** JavaScript string and array primitives                          *)
(* ================================================================== *)

Module JS.

(** [s.startsWith(p)] *)
Fixpoint startsWith (s p : string) : bool :=
  match p with
  | EmptyString => true
  | String b p' =>
      match s with
      | EmptyString => false
      | String a s' => Ascii.eqb a b && startsWith s' p'
      end
  end.

(** [s.includes(sub)] *)
Fixpoint includes (s sub : string) : bool :=
  startsWith s sub ||
  match s with
  | EmptyString => false
  | String _ s' => includes s' sub
  end.

(** [s.endsWith(suf)] *)
Fixpoint endsWith (s suf : string) : bool :=
  String.eqb s suf ||
  match s with
  | EmptyString => false
  | String _ s' => endsWith s' suf
  end.

Definition lower_ascii (c : ascii) : ascii :=
  let n := nat_of_ascii c in
  if (65 <=? n)%nat && (n <=? 90)%nat then ascii_of_nat (n + 32) else c.

(** [s.toLowerCase()] on ASCII text *)
Fixpoint toLowerCase (s : string) : string :=
  match s with
  | EmptyString => EmptyString
  | String c s' => String (lower_ascii c) (toLowerCase s')
  end.

(** [s.split(sep)] for a one-character separator; never empty:
    [''.split('/')] is [['']]. *)
Fixpoint split (sep : ascii) (s : string) : list string :=
  match s with
  | EmptyString => [EmptyString]
  | String c s' =>
      if Ascii.eqb c sep then EmptyString :: split sep s'
      else match split sep s' with
           | h :: t => String c h :: t
           | [] => [String c EmptyString]
           end
  end.

(** [a.join(sep)] *)
Fixpoint join (sep : string) (l : list string) : string :=
  match l with
  | [] => EmptyString
  | [x] => x
  | x :: rest => x ++ sep ++ join sep rest
  end.

(** [a.pop()] as a value, [a[a.length - 1]]: [None] is undefined *)
Definition pop (l : list string) : option string :=
  match l with
  | [] => None
  | _ => Some (last l EmptyString)
  end.

(** [a.slice(0, -1)] *)
Definition slice_init (l : list string) : list string := removelast l.

(** [a.indexOf(x)], with [None] for -1 *)
Fixpoint indexOf (l : list string) (x : string) : option nat :=
  match l with
  | [] => None
  | y :: l' =>
      if String.eqb y x then Some 0%nat
      else option_map S (indexOf l' x)
  end.

(** [a[i] = v] for an index inside the array *)
Fixpoint set_index (l : list string) (i : nat) (v : string) : list string :=
  match l, i with
  | [], _ => []
  | _ :: l', O => v :: l'
  | y :: l', S i' => y :: set_index l' i' v
  end.

(** [a.some(p)] *)
Definition some {A} (p : A -> bool) (l : list A) : bool := existsb p l.

(** [x || 0] for a numeric field that may be undefined *)
Definition or_zero (o : option Z) : Z :=
  match o with
  | Some z => z
  | None => 0%Z
  end.

(** [x || y] for a numeric [x]: 0 and undefined are falsy *)
Definition num_or (o : option Z) (y : Z) : Z :=
  match o with
  | Some z => if (z =? 0)%Z then y else z
  | None => y
  end.

(** [x || y] for a string [x]: the empty string and undefined are falsy *)
Definition str_or (o : option string) (y : string) : string :=
  match o with
  | Some EmptyString => y
  | Some s => s
  | None => y
  end.

(** [Math.round]: nearest integer, ties towards +infinity *)
Definition Math_round (q : Q) : Z := Qfloor (q + (1 # 2))%Q.

(** One-character global replacements, [s.replace(/c/g, rep)] *)
Fixpoint replace_char (c : ascii) (rep : string) (s : string) : string :=
  match s with
  | EmptyString => EmptyString
  | String a s' =>
      if Ascii.eqb a c then rep ++ replace_char c rep s'
      else String a (replace_char c rep s')
  end.

(** [s.replace(/\*\*/g, rep)]: leftmost, non-overlapping pairs of stars *)
Fixpoint replace_star_star (rep : string) (s : string) : string :=
  match s with
  | EmptyString => EmptyString
  | String a s' =>
      match s' with
      | String b s'' =>
          if Ascii.eqb a "*" && Ascii.eqb b "*"
          then rep ++ replace_star_star rep s''
          else String a (replace_star_star rep s')
      | EmptyString => String a EmptyString
      end
  end.

(** [s.replace(/\\\*/g, rep)]: a backslash followed by a star *)
Fixpoint replace_backslash_star (rep : string) (s : string) : string :=
  match s with
  | EmptyString => EmptyString
  | String a s' =>
      match s' with
      | String b s'' =>
          if Ascii.eqb a "\" && Ascii.eqb b "*"
          then rep ++ replace_backslash_star rep s''
          else String a (replace_backslash_star rep s')
      | EmptyString => String a EmptyString
      end
  end.

(** [s.replace(/[.+^${}()|[\]\\]/g, '\\$&')] *)
Definition is_special (c : ascii) : bool :=
  existsb (Ascii.eqb c)
    ["."; "+"; "^"; "$"; "{"; "}"; "("; ")"; "|"; "["; "]"; "\"]%char.

Fixpoint escape_special (s : string) : string :=
  match s with
  | EmptyString => EmptyString
  | String a s' =>
      if is_special a then String "\" (String a (escape_special s'))
      else String a (escape_special s')
  end.

(** Stable sort, largest key first: [a.sort((x, y) => key(y) - key(x))]. *)
Fixpoint insert_desc {A} (key : A -> Z) (x : A) (l : list A) : list A :=
  match l with
  | [] => [x]
  | y :: l' =>
      if (key x <? key y)%Z then y :: insert_desc key x l'
      else x :: y :: l'
  end.

Definition sort_desc {A} (key : A -> Z) (l : list A) : list A :=
  fold_right (insert_desc key) [] l.

(** [s.replace(/\.[^/.]+$/, '')]: drop a final extension *)
Fixpoint no_dot_slash (s : string) : bool :=
  match s with
  | EmptyString => true
  | String c s' =>
      negb (Ascii.eqb c "." || Ascii.eqb c "/") && no_dot_slash s'
  end.

Definition is_extension (s : string) : bool :=
  negb (String.eqb s EmptyString) && no_dot_slash s.

Fixpoint remove_extension (s : string) : string :=
  match s with
  | EmptyString => EmptyString
  | String c s' =>
      if Ascii.eqb c "." && is_extension s' then EmptyString
      else String c (remove_extension s')
  end.

(** Does the character occur in the string? (used to state facts
    about path segments and extensions) *)
Fixpoint has_char (c : ascii) (s : string) : bool :=
  match s with
  | EmptyString => false
  | String a s' => Ascii.eqb a c || has_char c s'
  end.

End JS.

(* ================================================================== *)
(** ** Regular expressions, as far as the glob translation produces them *)
(* ================================================================== *)

Module Regex.

Inductive atom : Type :=
| AChar (c : ascii)      (* a literal character, possibly escaped *)
| AAny                   (* [.] : any character but a line terminator *)
| ANotSlash.             (* [[^/]] *)

Inductive item : Type :=
| One (a : atom)
| Star (a : atom).

Record regex : Type := mkRegex
  { anchor_start : bool;   (* [^] at the beginning *)
    anchor_end : bool;     (* [$] at the end *)
    items : list item }.

Definition atom_ok (a : atom) (c : ascii) : bool :=
  match a with
  | AChar d => Ascii.eqb c d
  | AAny => negb (Ascii.eqb c "010" || Ascii.eqb c "013")
  | ANotSlash => negb (Ascii.eqb c "/")
  end.

(** The characters that are syntax when they stand alone. The parser
    refuses them: [new RegExp] either throws or gives them a meaning
    outside this fragment. *)
Definition is_meta (c : ascii) : bool :=
  existsb (Ascii.eqb c)
    ["*"; "+"; "?"; "("; ")"; "["; "]"; "{"; "}"; "|"; "^"; "$"]%char.

(** A backslash before a letter or a digit is a class or a control
    escape, not a literal: outside the fragment. *)
Definition is_alnum (c : ascii) : bool :=
  let n := nat_of_ascii c in
  ((48 <=? n) && (n <=? 57) || (65 <=? n) && (n <=? 90)
   || (97 <=? n) && (n <=? 122))%nat.

Definition with_star (a : atom) (rest : string) : item * string :=
  match rest with
  | String "*" rest' => (Star a, rest')
  | _ => (One a, rest)
  end.

(** One atom, then an optional star. *)
Definition next_item (s : string) : option (item * string) :=
  match s with
  | EmptyString => None
  | String "\" (String c rest) =>
      if is_alnum c then None else Some (with_star (AChar c) rest)
  | String "\" EmptyString => None
  | String "[" (String "^" (String "/" (String "]" rest))) =>
      Some (with_star ANotSlash rest)
  | String "." rest => Some (with_star AAny rest)
  | String c rest =>
      if is_meta c then None else Some (with_star (AChar c) rest)
  end.

Fixpoint parse_items (fuel : nat) (s : string) : option (list item) :=
  match s with
  | EmptyString => Some []
  | _ =>
      match fuel with
      | O => None
      | S fuel' =>
          match next_item s with
          | None => None
          | Some (i, rest) =>
              option_map (cons i) (parse_items fuel' rest)
          end
      end
  end.

(** [new RegExp(src)]: every item consumes a character, so the length
    of the text is fuel enough. [None] is outside the fragment. *)
Definition RegExp (src : string) : option (list item) :=
  parse_items (String.length src) src.

(** Match a list of items at the beginning of [s]. *)
Fixpoint match_here (to_end : bool) (r : list item) (s : string) : bool :=
  match r with
  | [] => if to_end then String.eqb s EmptyString else true
  | One a :: r' =>
      match s with
      | EmptyString => false
      | String c s' => atom_ok a c && match_here to_end r' s'
      end
  | Star a :: r' =>
      (fix star (t : string) : bool :=
         match_here to_end r' t ||
         match t with
         | EmptyString => false
         | String c t' => atom_ok a c && star t'
         end) s
  end.

Fixpoint match_anywhere (to_end : bool) (r : list item) (s : string) : bool :=
  match_here to_end r s ||
  match s with
  | EmptyString => false
  | String _ s' => match_anywhere to_end r s'
  end.

(** [regex.test(s)] *)
Definition test (r : regex) (s : string) : bool :=
  if anchor_start r then match_here (anchor_end r) (items r) s
  else match_anywhere (anchor_end r) (items r) s.

End Regex.

(* ================================================================== *)
(** ** shared/constants/patterns.js                                    *)
(* ================================================================== *)

Record LanguageConfig : Type := mkLanguageConfig
  { extensions : list string;
    patterns : list string;
    frameworks : list string }.

(** [TEST_PATTERNS], in the iteration order of the object literal *)
Definition TEST_PATTERNS : list (string * LanguageConfig) :=
  [ ("javascript",
     mkLanguageConfig ["js"; "jsx"; "mjs"]
       ["**/*.test.js"; "**/*.spec.js"; "**/test/**/*.js";
        "**/tests/**/*.js"; "**/__tests__/**/*.js"]
       ["jest"; "mocha"; "jasmine"; "vitest"]);
    ("typescript",
     mkLanguageConfig ["ts"; "tsx"]
       ["**/*.test.ts"; "**/*.spec.ts"; "**/test/**/*.ts";
        "**/tests/**/*.ts"; "**/__tests__/**/*.ts"]
       ["jest"; "mocha"; "jasmine"; "vitest"]);
    ("python",
     mkLanguageConfig ["py"]
       ["**/test_*.py"; "**/*_test.py"; "**/tests/**/*.py";
        "**/test/**/*.py"]
       ["pytest"; "unittest"; "nose2"]);
    ("java",
     mkLanguageConfig ["java"]
       ["**/src/test/**/*.java"; "**/*Test.java"; "**/*Tests.java";
        "**/test/**/*.java"]
       ["junit"; "testng"; "spock"]);
    ("csharp",
     mkLanguageConfig ["cs"]
       ["**/*.Test.cs"; "**/*.Tests.cs"; "**/test/**/*.cs";
        "**/tests/**/*.cs"]
       ["nunit"; "mstest"; "xunit"]);
    ("go",
     mkLanguageConfig ["go"] ["**/*_test.go"]
       ["testing"; "testify"; "ginkgo"]);
    ("php",
     mkLanguageConfig ["php"]
       ["**/tests/**/*.php"; "**/*Test.php"; "**/test/**/*.php"]
       ["phpunit"; "pest"; "codeception"]);
    ("ruby",
     mkLanguageConfig ["rb"]
       ["**/spec/**/*.rb"; "**/*_spec.rb"; "**/test/**/*.rb";
        "**/*_test.rb"]
       ["rspec"; "minitest"; "test-unit"]);
    ("rust",
     mkLanguageConfig ["rs"] ["**/tests/**/*.rs"; "**/*_test.rs"]
       ["cargo test"]);
    ("kotlin",
     mkLanguageConfig ["kt"; "kts"]
       ["**/src/test/**/*.kt"; "**/*Test.kt"; "**/*Tests.kt"]
       ["junit"; "spek"; "kotest"]) ].

(* ================================================================== *)
(** ** TestAnalysisService (background/services)                       *)
(* ================================================================== *)

Module TestAnalysisService.

(** A changed file as the Git services build it: GitHub fills
    [filename] and the three counters, GitLab only [filename]. *)
Record ChangedFile : Type := mkChangedFile
  { file_filename : option string;
    file_path : option string;
    file_additions : option Z;
    file_deletions : option Z;
    file_changes : option Z }.

Inductive TestType : Type := existing | related | suggested.

Record TestEntry : Type := mkTestEntry
  { test_path : string;
    test_type : TestType;
    test_sourceFile : option string;
    test_language : string;
    test_confidence : Q;
    test_reason : string }.

Record SourceFile : Type := mkSourceFile
  { src_path : string;
    src_language : string;
    src_additions : Z;
    src_deletions : Z;
    src_changes : Z }.

Inductive Severity : Type := high | medium.

Record Recommendation : Type := mkRecommendation
  { rec_type : string;
    rec_severity : Severity;
    rec_file : string;
    rec_message : string;
    rec_suggestion : string }.

Record Risk : Type := mkRisk
  { risk_file : string;
    risk_risk : Z;
    risk_changes : Z }.

Record RiskAnalysis : Type := mkRiskAnalysis
  { totalRisk : Z;
    risks : list Risk }.

Record Statistics : Type := mkStatistics
  { stat_totalFiles : nat;
    stat_sourceFiles : nat;
    stat_testFiles : nat;
    stat_relatedTests : nat }.

(** The object [identifyTests] resolves to. The early return for an
    empty change list sets three properties only. *)
Record AnalysisResult : Type := mkAnalysisResult
  { identifiedTests : list TestEntry;
    existingTests : option (list TestEntry);
    relatedTests : option (list TestEntry);
    sourceFiles : option (list SourceFile);
    coverage : Z;
    recommendations : list Recommendation;
    riskAnalysis : option RiskAnalysis;
    statistics : option Statistics }.

(** [this.testPatterns = config.testPatterns || TEST_PATTERNS], with
    the default configuration. *)
Definition testPatterns : list (string * LanguageConfig) := TEST_PATTERNS.

(** [file.filename || file.path || ''] *)
Definition name_of (file : ChangedFile) : string :=
  JS.str_or (file_filename file) (JS.str_or (file_path file) "").

(** [_globToRegex]: the three replacements in the order of the source,
    each on the result of the one before; the expression is not
    anchored. *)
Definition _globToRegex_source (pattern : string) : string :=
  JS.replace_char "." "\."
    (JS.replace_char "*" "[^/]*"
       (JS.replace_star_star ".*" pattern)).

Definition _globToRegex (pattern : string) : option Regex.regex :=
  option_map (Regex.mkRegex false false)
    (Regex.RegExp (_globToRegex_source pattern)).

Definition pattern_test (pattern filename : string) : bool :=
  match _globToRegex pattern with
  | Some regex => Regex.test regex filename
  | None => false
  end.

(** The loop over all language patterns of [_isTestFile]. *)
Definition matches_language_pattern (filename : string) : bool :=
  existsb
    (fun entry => existsb (fun pattern => pattern_test pattern filename)
                    (patterns (snd entry)))
    testPatterns.

Definition _isTestFile (filename : string) : bool :=
  let lowerFilename := JS.toLowerCase filename in
  if matches_language_pattern filename then true
  else JS.includes lowerFilename "test" ||
       JS.includes lowerFilename "spec" ||
       JS.includes lowerFilename "__tests__".

Definition codeExtensions : list string :=
  [".js"; ".jsx"; ".ts"; ".tsx"; ".py"; ".java"; ".cs";
   ".go"; ".php"; ".rb"; ".rs"; ".kt"; ".cpp"; ".c"; ".h"].

Definition ignoredPaths : list string :=
  ["node_modules"; "vendor"; "dist"; "build"; ".git";
   "package-lock.json"; "yarn.lock"].

Definition _isCodeFile (filename : string) : bool :=
  if JS.some (fun ignored => JS.includes filename ignored) ignoredPaths
  then false
  else JS.some (fun ext => JS.endsWith filename ext) codeExtensions.

Definition _detectLanguage (filename : string) : string :=
  let ext := option_map JS.toLowerCase (JS.pop (JS.split "." filename)) in
  match
    find (fun entry =>
            match ext with
            | Some e => existsb (String.eqb e) (extensions (snd entry))
            | None => false
            end) testPatterns
  with
  | Some entry => fst entry
  | None => "unknown"
  end.

Definition _identifyExistingTests (changedFiles : list ChangedFile)
  : list TestEntry :=
  flat_map
    (fun file =>
       let filename := name_of file in
       if _isTestFile filename
       then [ mkTestEntry filename existing None
                (_detectLanguage filename) 1
                "Direct test file modification" ]
       else [])
    changedFiles.

Definition _identifySourceFiles (changedFiles : list ChangedFile)
  : list SourceFile :=
  map
    (fun file =>
       mkSourceFile (name_of file) (_detectLanguage (name_of file))
         (JS.or_zero (file_additions file))
         (JS.or_zero (file_deletions file))
         (JS.or_zero (file_changes file)))
    (filter
       (fun file =>
          let filename := name_of file in
          negb (_isTestFile filename) && _isCodeFile filename)
       changedFiles).

Definition _generateTestPaths (sourcePath : string) : list string :=
  let parts := JS.split "/" sourcePath in
  let filename := last parts "" in
  let dir := JS.join "/" (JS.slice_init parts) in
  let nameWithoutExt := JS.join "." (JS.slice_init (JS.split "." filename)) in
  let ext := last (JS.split "." filename) "" in
  List.app
    [ dir ++ "/" ++ nameWithoutExt ++ ".test." ++ ext;
      dir ++ "/" ++ nameWithoutExt ++ ".spec." ++ ext;
      dir ++ "/__tests__/" ++ filename;
      dir ++ "/__tests__/" ++ nameWithoutExt ++ ".test." ++ ext;
      dir ++ "/tests/" ++ filename;
      dir ++ "/test/" ++ filename ]
    match JS.indexOf parts "src" with
    | Some srcIndex =>
        [ JS.join "/" (JS.set_index parts srcIndex "test");
          JS.join "/" (JS.set_index parts srcIndex "tests") ]
    | None => []
    end.

Definition _findRelatedTests (sourceFiles : list SourceFile)
    (allFiles : list ChangedFile) : list TestEntry :=
  flat_map
    (fun sourceFile =>
       let possibleTestPaths := _generateTestPaths (src_path sourceFile) in
       (map
          (fun testPath =>
             mkTestEntry testPath related (Some (src_path sourceFile))
               (src_language sourceFile) (9 # 10)
               "Test file for modified source")
          (filter
             (fun testPath =>
                JS.some (fun f => String.eqb (name_of f) testPath) allFiles)
             possibleTestPaths)
        ++
        match possibleTestPaths with
        | first :: _ =>
            [ mkTestEntry first suggested (Some (src_path sourceFile))
                (src_language sourceFile) (6 # 10)
                "Suggested test file based on naming convention" ]
        | [] => []
        end)%list)
    sourceFiles.

Definition is_related (t : TestEntry) : bool :=
  match test_type t with
  | related => true
  | _ => false
  end.

(** [_calculateCoverage]. The quotient is exact here; the code computes
    [(testedFiles / sourceFiles.length) * 100] in doubles before
    [Math.round], so that the two differ by one where the product is
    not exact and falls just short of a half (23 tested files over 40
    source files: 57 in the code, 58 here). They agree whenever the
    quotient is itself a double, as 0, 1/2, 1 and 2 are. *)
Definition _calculateCoverage (sourceFiles : list SourceFile)
    (relatedTests : list TestEntry) : Z :=
  match sourceFiles with
  | [] => 100
  | _ =>
      let testedFiles := Z.of_nat (length (filter is_related relatedTests)) in
      let coverage :=
        (inject_Z testedFiles / inject_Z (Z.of_nat (length sourceFiles))
         * 100)%Q in
      JS.Math_round coverage
  end%Z.

Definition option_string_eqb (o : option string) (s : string) : bool :=
  match o with
  | Some x => String.eqb x s
  | None => false
  end.

Definition _generateRecommendations (sourceFiles : list SourceFile)
    (relatedTests : list TestEntry) : list Recommendation :=
  let testedPaths := map test_sourceFile relatedTests in
  flat_map
    (fun sourceFile =>
       if existsb (fun p => option_string_eqb p (src_path sourceFile))
            testedPaths
       then []
       else
         [ mkRecommendation "missing_test"
             (if (src_changes sourceFile >? 50)%Z then high else medium)
             (src_path sourceFile)
             ("No test file found for " ++ src_path sourceFile)
             ("Create test at: " ++
              hd "undefined" (_generateTestPaths (src_path sourceFile))) ])
    sourceFiles.

(** [file.filename || file.path], without the final [|| '']: [None] is
    undefined. *)
Definition raw_name (file : ChangedFile) : option string :=
  match file_filename file with
  | Some (String c s) => Some (String c s)
  | _ => file_path file
  end.

(** One turn of the loop of [_analyzeRisk]: the file name, the risk and
    the number of changes. [_isTestFile] is called on
    [file.filename || file.path]; on undefined its first line,
    [filename.toLowerCase()], throws a TypeError: [None]. *)
Definition file_risk (file : ChangedFile) : option (string * Z * Z) :=
  let changes :=
    JS.num_or (file_changes file)
      (JS.or_zero (file_additions file) + JS.or_zero (file_deletions file))%Z in
  let risk :=
    (if changes >? 100 then 30
     else if changes >? 50 then 20
     else if changes >? 10 then 10
     else 0)%Z in
  match raw_name file with
  | None => None
  | Some filename =>
      let risk := if _isTestFile filename then risk else (risk + 10)%Z in
      Some (filename, risk, changes)
  end.

Fixpoint file_risks (changedFiles : list ChangedFile)
  : option (list (string * Z * Z)) :=
  match changedFiles with
  | [] => Some []
  | file :: rest =>
      match file_risk file with
      | None => None
      | Some r => option_map (cons r) (file_risks rest)
      end
  end.

(** [_analyzeRisk], for a list that is not empty: [identifyTests]
    returns before the call when it is (the quotient would be NaN).
    [None] is the TypeError of a file without a name. *)
Definition _analyzeRisk (changedFiles : list ChangedFile)
  : option RiskAnalysis :=
  match file_risks changedFiles with
  | None => None
  | Some per_file =>
      let total :=
        fold_left (fun acc r => (acc + snd (fst r))%Z) per_file 0%Z in
      let risks :=
        flat_map
          (fun r : string * Z * Z =>
             let '(file, risk, changes) := r in
             if (risk >? 0)%Z
             then [ mkRisk file (Z.min risk 100) changes ]
             else [])
          per_file in
      Some
        (mkRiskAnalysis
           (Z.min
              (JS.Math_round
                 (inject_Z total / inject_Z (Z.of_nat (length changedFiles)))%Q)
              100)
           (JS.sort_desc risk_risk risks))
  end.

(** Object identity. Every entry is a fresh object literal, so each
    gets a reference of its own; [new Set] keeps the first element of
    every reference. *)
Definition fresh_objects {A} (l : list A) : list (nat * A) :=
  combine (seq 0 (length l)) l.

Fixpoint Set_of {A} (seen : list nat) (l : list (nat * A))
  : list (nat * A) :=
  match l with
  | [] => []
  | (r, x) :: l' =>
      if existsb (Nat.eqb r) seen then Set_of seen l'
      else (r, x) :: Set_of (r :: seen) l'
  end.

(** [identifyTests]; [None] is a rejected promise (the TypeError of
    [_analyzeRisk]). *)
Definition identifyTests (changedFiles : list ChangedFile)
  : option AnalysisResult :=
  match changedFiles with
  | [] => Some (mkAnalysisResult [] None None None 0 [] None None)
  | _ =>
      let existingTests := _identifyExistingTests changedFiles in
      let sourceFiles := _identifySourceFiles changedFiles in
      let relatedTests := _findRelatedTests sourceFiles changedFiles in
      let coverage := _calculateCoverage sourceFiles relatedTests in
      let recommendations :=
        _generateRecommendations sourceFiles relatedTests in
      match _analyzeRisk changedFiles with
      | None => None
      | Some riskAnalysis =>
          Some
            (mkAnalysisResult
               (map snd
                  (Set_of [] (fresh_objects (existingTests ++ relatedTests))))
               (Some existingTests) (Some relatedTests) (Some sourceFiles)
               coverage recommendations (Some riskAnalysis)
               (Some (mkStatistics (length changedFiles) (length sourceFiles)
                        (length existingTests) (length relatedTests))))
      end
  end.

(** The result for a list that is not empty, with the set written as
    the concatenation it amounts to (lemma [identifyTests_nonempty]). *)
Definition result_of (changedFiles : list ChangedFile)
    (riskAnalysis : RiskAnalysis) : AnalysisResult :=
  let sources := _identifySourceFiles changedFiles in
  let related := _findRelatedTests sources changedFiles in
  mkAnalysisResult
    (_identifyExistingTests changedFiles ++ related)%list
    (Some (_identifyExistingTests changedFiles)) (Some related) (Some sources)
    (_calculateCoverage sources related)
    (_generateRecommendations sources related)
    (Some riskAnalysis)
    (Some (mkStatistics (length changedFiles) (length sources)
             (length (_identifyExistingTests changedFiles))
             (length related))).

(** What one changed file adds to the [risks] array: an entry when its
    risk is positive. *)
Definition risk_entry (file : ChangedFile) : list Risk :=
  match file_risk file with
  | Some (filename, risk, changes) =>
      if (risk >? 0)%Z
      then [ mkRisk filename (Z.min risk 100) changes ]
      else []
  | None => []
  end.

(** The suggested entry that [_findRelatedTests] pushes for a source
    file. *)
Definition suggestion_for (sourceFile : SourceFile) : TestEntry :=
  mkTestEntry (hd "" (_generateTestPaths (src_path sourceFile))) suggested
    (Some (src_path sourceFile)) (src_language sourceFile) (6 # 10)
    "Suggested test file based on naming convention".

Definition is_suggested (t : TestEntry) : bool :=
  match test_type t with
  | suggested => true
  | _ => false
  end.

End TestAnalysisService.

(* ================================================================== *)
(** ** TestAnalyzer (the background service worker)                    *)
(* ================================================================== *)

(** The class body defines [globToRegex], [getTestType],
    [identifyRelevantTests], [generateTestSuggestions] and
    [estimateRunTime] twice; the later definition is the method of the
    class. The earlier ones are kept here under the suffix [_first]. *)

Module TestAnalyzer.

Record CodeChange : Type := mkCodeChange
  { change_file : option string;
    change_fileName : string;
    change_fileExtension : string;
    change_changeType : string;
    change_modifiedFunctions : list string;
    change_addedLines : list string;
    change_removedLines : list string }.

(** [estimatedMethods] is a number on the pattern path and an array of
    names on the alternative path. *)
Inductive Methods : Type :=
| MethodCount (n : Z)
| MethodNames (l : list string).

(** The value of [extensionMap[extension] || 'unknown']: the name of a
    language, or, for a key that the object literal inherits from
    [Object.prototype] (such as 'constructor'), the inherited member,
    which is truthy and is no string. *)
Inductive Language : Type :=
| LanguageName (name : string)
| InheritedMember (key : string).

Coercion LanguageName : string >-> Language.

(** [a === b] on such values: equal strings, or the same member. *)
Definition Language_eqb (a b : Language) : bool :=
  match a, b with
  | LanguageName x, LanguageName y => String.eqb x y
  | InheritedMember x, InheritedMember y => String.eqb x y
  | _, _ => false
  end.

Record TestFile : Type := mkTestFile
  { tf_fileName : string;
    tf_language : Language;
    tf_framework : string;
    tf_type : string;
    tf_confidence : Z;
    tf_reason : string;
    tf_estimatedMethods : Methods }.

(** An entry of [identifyRelevantTests]: the test, a new confidence and
    reason, and the changed file it relates to. The earlier definition
    copies no [framework]. *)
Record RelevantTest : Type := mkRelevantTest
  { rt_fileName : string;
    rt_language : Language;
    rt_framework : option string;
    rt_type : string;
    rt_confidence : Z;
    rt_reason : string;
    rt_methods : Methods;
    rt_relatedFile : string }.

Record Suggestion : Type := mkSuggestion
  { sg_fileName : string;
    sg_type : string;
    sg_reason : string;
    sg_confidence : Z;
    sg_template : string }.

Record Coverage : Type := mkCoverage
  { estimated : Z;
    criticalPaths : Z;
    riskScore : Z;
    totalChangedLines : Z;
    totalChangedFiles : Z;
    testFilesCount : Z;
    testCoverage : string }.

(** [loadTestPatterns] *)
Definition loadTestPatterns : list (string * LanguageConfig) :=
  [ ("javascript",
     mkLanguageConfig ["js"; "jsx"; "mjs"]
       ["**/*.test.js"; "**/*.spec.js"; "**/test/**/*.js";
        "**/tests/**/*.js"; "**/__tests__/**/*.js"]
       ["jest"; "mocha"; "jasmine"; "vitest"]);
    ("typescript",
     mkLanguageConfig ["ts"; "tsx"]
       ["**/*.test.ts"; "**/*.spec.ts"; "**/test/**/*.ts";
        "**/tests/**/*.ts"; "**/__tests__/**/*.ts"]
       ["jest"; "mocha"; "jasmine"; "vitest"]);
    ("python",
     mkLanguageConfig ["py"]
       ["**/test_*.py"; "**/*_test.py"; "**/tests/**/*.py";
        "**/test/**/*.py"]
       ["pytest"; "unittest"; "nose2"]);
    ("java",
     mkLanguageConfig ["java"]
       ["**/src/test/**/*.java"; "**/*Test.java"; "**/*Tests.java";
        "**/test/**/*.java"]
       ["junit"; "testng"; "spock"]) ].

Definition languageIndicators : list (string * list string) :=
  [ ("javascript", [".js"; "package.json"; ".jsx"]);
    ("typescript", [".ts"; ".tsx"; "tsconfig.json"]);
    ("java", [".java"; "pom.xml"; "build.gradle"]);
    ("python", [".py"; "requirements.txt"; "setup.py"; "pyproject.toml"]);
    ("csharp", [".cs"; ".csproj"; ".sln"]);
    ("go", [".go"; "go.mod"]);
    ("php", [".php"; "composer.json"]) ].

Definition detectProjectLanguages (files : list string) : list string :=
  let detectedLanguages :=
    map fst
      (filter
         (fun entry =>
            JS.some
              (fun indicator =>
                 JS.some (fun file => JS.includes file indicator) files)
              (snd entry))
         languageIndicators) in
  match detectedLanguages with
  | [] => ["javascript"]
  | _ => detectedLanguages
  end.

(** The earlier [globToRegex]: escape first, then translate. *)
Definition SOH : string := String (ascii_of_nat 1) EmptyString.

Definition globToRegex_first_source (glob : string) : string :=
  JS.replace_char (ascii_of_nat 1) "\*"
    (JS.replace_char "?" "."
       (JS.replace_char "*" "[^/]*"
          (JS.replace_star_star ".*"
             (JS.replace_backslash_star SOH
                (JS.escape_special glob))))).

Definition globToRegex_first (glob : string) : option Regex.regex :=
  option_map (Regex.mkRegex true true)
    (Regex.RegExp (globToRegex_first_source glob)).

(** The [globToRegex] of the class; the expression is anchored. *)
Definition globToRegex_source (pattern : string) : string :=
  JS.replace_char "." "\."
    (JS.replace_char "?" "."
       (JS.replace_char "*" "[^/]*"
          (JS.replace_star_star ".*" pattern))).

Definition globToRegex (pattern : string) : option Regex.regex :=
  option_map (Regex.mkRegex true true)
    (Regex.RegExp (globToRegex_source pattern)).

Definition regex_test (r : option Regex.regex) (file : string) : bool :=
  match r with
  | Some regex => Regex.test regex file
  | None => false
  end.

Definition getTestType (fileName : string) : string :=
  if JS.includes fileName "unit" then "unit"
  else if JS.includes fileName "integration" then "integration"
  else if JS.includes fileName "e2e" || JS.includes fileName "end-to-end"
  then "e2e"
  else "unit".

Definition estimateTestMethods (fileName : string) : Z :=
  let baseEstimate := 5%Z in
  if JS.includes fileName "integration" then (baseEstimate * 2)%Z
  else if JS.includes fileName "e2e" then (baseEstimate * 3)%Z
  else baseEstimate.

Definition calculateTestConfidence (fileName pattern : string) : Z :=
  let confidence := 50%Z in
  let confidence :=
    if JS.includes fileName ".test." || JS.includes fileName ".spec."
    then (confidence + 30)%Z else confidence in
  let confidence :=
    if JS.includes fileName "/test/" || JS.includes fileName "/tests/"
    then (confidence + 20)%Z else confidence in
  let confidence :=
    if JS.includes fileName "__tests__"
    then (confidence + 25)%Z else confidence in
  let confidence :=
    if JS.includes pattern "**/*.test." || JS.includes pattern "**/*.spec."
    then (confidence + 15)%Z else confidence in
  Z.min confidence 95.

Definition extensionMap : list (string * string) :=
  [ ("js", "javascript"); ("jsx", "javascript");
    ("ts", "typescript"); ("tsx", "typescript");
    ("py", "python"); ("java", "java"); ("cs", "csharp");
    ("go", "go"); ("php", "php") ].

Definition lookup (m : list (string * string)) (k : string)
  : option string :=
  option_map snd (find (fun e => String.eqb (fst e) k) m).

(** The property names of [Object.prototype], which every object
    literal answers to. *)
Definition inheritedKeys : list string :=
  [ "constructor"; "__defineGetter__"; "__defineSetter__";
    "hasOwnProperty"; "__lookupGetter__"; "__lookupSetter__";
    "isPrototypeOf"; "propertyIsEnumerable"; "toString"; "valueOf";
    "__proto__"; "toLocaleString" ].

(** [extensionMap[extension] || 'unknown'] *)
Definition extensionMap_or_unknown (extension : string) : Language :=
  match lookup extensionMap extension with
  | Some l => LanguageName l
  | None =>
      if existsb (String.eqb extension) inheritedKeys
      then InheritedMember extension
      else LanguageName "unknown"
  end.

Definition getLanguageFromFile (fileName : string) : Language :=
  match option_map JS.toLowerCase (JS.pop (JS.split "." fileName)) with
  | Some extension => extensionMap_or_unknown extension
  | None => LanguageName "unknown"
  end.

Definition getLanguageFromExtension (extension : string) : Language :=
  extensionMap_or_unknown extension.

Definition testIndicators : list string :=
  ["test"; "spec"; "__tests__"; "tests"; "Test"; "Spec"; "Tests"; "TESTS"].

Definition isLikelyTestFile (fileName : string) : bool :=
  JS.includes fileName ".test." ||
  JS.includes fileName ".spec." ||
  JS.includes fileName "/test/" ||
  JS.includes fileName "/tests/" ||
  JS.includes fileName "__tests__" ||
  JS.endsWith fileName "test.js" ||
  JS.endsWith fileName "spec.js" ||
  JS.endsWith fileName "test.ts" ||
  JS.endsWith fileName "spec.ts".

Definition findTestsAlternativeMethod (files : list string)
  : list TestFile :=
  flat_map
    (fun file =>
       let fileName := JS.toLowerCase file in
       let hasTestIndicator :=
         JS.some
           (fun indicator =>
              JS.includes fileName (JS.toLowerCase indicator))
           testIndicators in
       if hasTestIndicator && isLikelyTestFile fileName
       then [ mkTestFile file (getLanguageFromFile file) "unknown" "unit"
                60 "Alternative detection: contains test indicators"
                (MethodNames ["test1"; "test2"; "test3"]) ]
       else [])
    files.

(** The pattern pass of [findExistingTests]: languages, then patterns,
    then files. *)
Definition patternTests (files : list string) : list TestFile :=
  flat_map
    (fun language =>
       match find (fun e => String.eqb (fst e) language) loadTestPatterns
       with
       | None => []
       | Some (_, languageConfig) =>
           flat_map
             (fun pattern =>
                let regex := globToRegex pattern in
                map
                  (fun file =>
                     mkTestFile file language
                       (hd "unknown" (frameworks languageConfig))
                       (getTestType file)
                       (calculateTestConfidence file pattern)
                       ("Matches " ++ language ++ " test pattern: "
                        ++ pattern)
                       (MethodCount (estimateTestMethods file)))
                  (filter (regex_test regex) files))
             (patterns languageConfig)
       end)
    (detectProjectLanguages files).

(** [findExistingTests], on the file list of the repository
    structure. *)
Definition findExistingTests (files : list string) : list TestFile :=
  let testFiles := patternTests files in
  match testFiles with
  | [] => findTestsAlternativeMethod files
  | _ => testFiles
  end.

(** *** The earlier [identifyRelevantTests] and its score *)

Definition bump (b : bool) (n : Z) (confidence : Z) : Z :=
  if b then (confidence + n)%Z else confidence.

Definition calculateTestRelevance (codeChange : CodeChange)
    (testFile : TestFile) : Z :=
  let fileName := change_fileName codeChange in
  let codeFileName :=
    hd "" (JS.split "." (last (JS.split "/" fileName) "")) in
  let testFileName := last (JS.split "/" (tf_fileName testFile)) "" in
  let confidence :=
    bump (JS.includes (JS.toLowerCase testFileName)
            (JS.toLowerCase codeFileName)) 50 0 in
  let codeDir := JS.join "/" (JS.slice_init (JS.split "/" fileName)) in
  let testDir :=
    JS.join "/" (JS.slice_init (JS.split "/" (tf_fileName testFile))) in
  let confidence :=
    bump (JS.includes testDir codeDir || JS.includes codeDir testDir)
      30 confidence in
  let confidence :=
    fold_left
      (fun confidence func =>
         bump (JS.includes (JS.toLowerCase testFileName)
                 (JS.toLowerCase func)) 20 confidence)
      (change_modifiedFunctions codeChange) confidence in
  let confidence :=
    bump (Language_eqb
            (getLanguageFromExtension (change_fileExtension codeChange))
            (tf_language testFile)) 10 confidence in
  Z.min confidence 100.

Definition getRelevanceReason (confidence : Z) : string :=
  if (confidence >=? 70)%Z
  then "High similarity in file names and structure"
  else if (confidence >=? 50)%Z
  then "Moderate similarity in naming patterns"
  else if (confidence >=? 30)%Z
  then "Potential relationship based on directory structure"
  else "Low confidence match".

(** [removeDuplicateTests]: the filter with its [seen] set *)
Fixpoint removeDuplicateTests_from (seen : list string)
    (tests : list RelevantTest) : list RelevantTest :=
  match tests with
  | [] => []
  | test :: rest =>
      let key := rt_fileName test in
      if existsb (String.eqb key) seen
      then removeDuplicateTests_from seen rest
      else test :: removeDuplicateTests_from (key :: seen) rest
  end.

Definition removeDuplicateTests (tests : list RelevantTest)
  : list RelevantTest :=
  removeDuplicateTests_from [] tests.

Definition candidate_first (change : CodeChange) (test : TestFile)
  : RelevantTest :=
  let confidence := calculateTestRelevance change test in
  mkRelevantTest (tf_fileName test) (tf_language test) None (tf_type test)
    confidence (getRelevanceReason confidence)
    (tf_estimatedMethods test) (change_fileName change).

(** The two nested [forEach] loops, before duplicates are removed. *)
Definition relevantTests_first (codeChanges : list CodeChange)
    (existingTests : list TestFile) : list RelevantTest :=
  flat_map
    (fun change =>
       map (candidate_first change)
         (filter
            (fun test => (calculateTestRelevance change test >? 30)%Z)
            existingTests))
    codeChanges.

Definition identifyRelevantTests_first (maxTestsToRun : nat)
    (codeChanges : list CodeChange) (existingTests : list TestFile)
  : list RelevantTest :=
  let uniqueTests :=
    removeDuplicateTests (relevantTests_first codeChanges existingTests) in
  firstn maxTestsToRun (JS.sort_desc rt_confidence uniqueTests).

(** *** The [identifyRelevantTests] of the class *)

Definition changedFile_of (change : CodeChange) : string :=
  JS.str_or (change_file change) (change_fileName change).

Definition areFilesRelated (file1 file2 : string) : bool :=
  let name1 := JS.remove_extension (last (JS.split "/" file1) "") in
  let name2 := JS.remove_extension (last (JS.split "/" file2) "") in
  JS.includes (JS.toLowerCase name1) (JS.toLowerCase name2) ||
  JS.includes (JS.toLowerCase name2) (JS.toLowerCase name1).

(** The cascade that sets [confidence] and [reason] for one pair. *)
Definition pair_score (change : CodeChange) (test : TestFile)
  : Z * string :=
  let changedFile := changedFile_of change in
  let baseName := JS.remove_extension changedFile in
  let directory := JS.join "/" (JS.slice_init (JS.split "/" changedFile)) in
  if JS.includes (tf_fileName test) baseName
  then (90%Z, "Tests file with same name")
  else if JS.includes (tf_fileName test) directory
  then (70%Z, "Tests in same directory")
  else if areFilesRelated changedFile (tf_fileName test)
  then (60%Z, "Related functionality")
  else (0%Z, "").

Definition candidate (change : CodeChange) (test : TestFile)
  : RelevantTest :=
  mkRelevantTest (tf_fileName test) (tf_language test)
    (Some (tf_framework test)) (tf_type test)
    (fst (pair_score change test)) (snd (pair_score change test))
    (tf_estimatedMethods test) (changedFile_of change).

Definition relevantTests (codeChanges : list CodeChange)
    (existingTests : list TestFile) : list RelevantTest :=
  flat_map
    (fun change =>
       map (candidate change)
         (filter (fun test => (fst (pair_score change test) >? 50)%Z)
            existingTests))
    codeChanges.

(** [self.findIndex(t => t.fileName === name)] *)
Fixpoint findIndex (name : string) (l : list RelevantTest) : option nat :=
  match l with
  | [] => None
  | t :: l' =>
      if String.eqb (rt_fileName t) name then Some 0%nat
      else option_map S (findIndex name l')
  end.

Definition option_nat_eqb (o : option nat) (n : nat) : bool :=
  match o with
  | Some m => Nat.eqb m n
  | None => false
  end.

(** [self.filter((test, index, self) => index === self.findIndex(...))] *)
Definition uniqueTests (self : list RelevantTest) : list RelevantTest :=
  map snd
    (filter
       (fun it =>
          option_nat_eqb (findIndex (rt_fileName (snd it)) self) (fst it))
       (combine (seq 0 (length self)) self)).

Definition identifyRelevantTests (codeChanges : list CodeChange)
    (existingTests : list TestFile) : list RelevantTest :=
  JS.sort_desc rt_confidence
    (uniqueTests (relevantTests codeChanges existingTests)).

Definition generateTestSuggestions (codeChanges : list CodeChange)
  : list Suggestion :=
  map
    (fun change =>
       let baseName := JS.remove_extension (changedFile_of change) in
       mkSuggestion (baseName ++ ".test.js") "suggested"
         "No existing tests found for modified file" 80 "unit-test")
    codeChanges.

Definition criticalNames : list string :=
  ["main"; "init"; "constructor"; "setup"].

(** [analyzeCoverage]. As for [_calculateCoverage] of the service, the
    quotient is exact here and in doubles in the code (40 changes and 23
    tests: 57 in the code, 58 here). *)
Definition analyzeCoverage {T} (codeChanges : list CodeChange)
    (relevantTests : list T) : Coverage :=
  let totalChangedLines :=
    fold_left
      (fun sum change =>
         (sum + Z.of_nat (length (change_addedLines change))
          + Z.of_nat (length (change_removedLines change)))%Z)
      codeChanges 0%Z in
  let totalChangedFiles := Z.of_nat (length codeChanges) in
  let testFilesCount := Z.of_nat (length relevantTests) in
  let estimatedCoverage :=
    if (totalChangedFiles >? 0)%Z then
      let filesCovered := Z.min testFilesCount totalChangedFiles in
      let estimatedCoverage :=
        JS.Math_round
          (inject_Z filesCovered / inject_Z totalChangedFiles * 100)%Q in
      if (testFilesCount >? totalChangedFiles)%Z then
        let bonus := Z.min 20 ((testFilesCount - totalChangedFiles) * 5) in
        Z.min 95 (estimatedCoverage + bonus)
      else estimatedCoverage
    else 0%Z in
  let criticalPaths :=
    Z.of_nat
      (length
         (filter
            (fun change =>
               JS.some
                 (fun func =>
                    existsb (String.eqb (JS.toLowerCase func))
                      criticalNames)
                 (change_modifiedFunctions change))
            codeChanges)) in
  let riskScore :=
    Z.max 0 (Z.min 100 (100 - estimatedCoverage + criticalPaths * 10)) in
  mkCoverage estimatedCoverage criticalPaths riskScore totalChangedLines
    totalChangedFiles testFilesCount
    (if (estimatedCoverage >=? 80)%Z then "Excellent"
     else if (estimatedCoverage >=? 60)%Z then "Good"
     else if (estimatedCoverage >=? 40)%Z then "Fair"
     else "Poor").

(** The change that [analyzeTests] substitutes for an empty list. *)
Definition defaultChange : CodeChange :=
  mkCodeChange None "src/main.js" "js" "modified" ["main"; "init"] [] [].

Record Analysis : Type := mkAnalysis
  { identifiedTests : list RelevantTest;
    suggestedTests : list Suggestion;
    coverage : Coverage;
    totalTests : nat }.

(** The body of [analyzeTests] after the repository structure has
    been fetched; [files] is its file list ([[]] when the fetch
    failed). The run-time estimate and the fields copied from the
    request are left out. *)
Definition analyzeTests (codeChanges : list CodeChange)
    (files : list string) : Analysis :=
  let codeChanges :=
    match codeChanges with
    | [] => [defaultChange]
    | _ => codeChanges
    end in
  let existingTests := findExistingTests files in
  let relevantTests := identifyRelevantTests codeChanges existingTests in
  let suggestedTests :=
    match relevantTests with
    | [] => generateTestSuggestions codeChanges
    | _ => []
    end in
  let coverageAnalysis := analyzeCoverage codeChanges relevantTests in
  mkAnalysis relevantTests suggestedTests coverageAnalysis
    (length relevantTests).

End TestAnalyzer.

(* ================================================================== *)
(** ** Glob patterns as the specification words them                   *)
(* ================================================================== *)

Module GlobSpec.

(** One path segment against one pattern segment: [*] stands for any
    characters of the segment, every other character for itself. *)
Fixpoint segment_match (pat seg : string) : bool :=
  match pat with
  | EmptyString => String.eqb seg EmptyString
  | String "*" pat' =>
      (fix star (t : string) : bool :=
         segment_match pat' t ||
         match t with
         | EmptyString => false
         | String _ t' => star t'
         end) seg
  | String c pat' =>
      match seg with
      | EmptyString => false
      | String d seg' => Ascii.eqb c d && segment_match pat' seg'
      end
  end.

(** A pattern segment [**] stands for any number of path segments,
    zero included. *)
Fixpoint segments_match (pats segs : list string) : bool :=
  match pats with
  | [] => match segs with [] => true | _ => false end
  | pat :: pats' =>
      if String.eqb pat "**" then
        (fix skip (l : list string) : bool :=
           segments_match pats' l ||
           match l with
           | [] => false
           | _ :: l' => skip l'
           end) segs
      else
        match segs with
        | [] => false
        | seg :: segs' => segment_match pat seg && segments_match pats' segs'
        end
  end.

Definition glob_match (glob path : string) : bool :=
  segments_match (JS.split "/" glob) (JS.split "/" path).

End GlobSpec.

(* ================================================================== *)
(** ** FILE_EXTENSIONS of shared/constants/patterns.js                 *)
(* ================================================================== *)

Module Patterns.

(** The accumulator object of the [reduce], with its keys in insertion
    order. *)
Definition ExtensionMap : Type := list (string * list string).

(** [acc[ext]], for a key that is not inherited from [Object.prototype]
    (no extension of the registry is): the own property, if any. *)
Definition get (acc : ExtensionMap) (ext : string) : option (list string) :=
  option_map snd (find (fun e => String.eqb (fst e) ext) acc).

(** [if (!acc[ext]) acc[ext] = []; acc[ext].push(...pats)] *)
Fixpoint push (acc : ExtensionMap) (ext : string) (pats : list string)
  : ExtensionMap :=
  match acc with
  | [] => [(ext, pats)]
  | (k, v) :: rest =>
      if String.eqb k ext then (k, (v ++ pats)%list) :: rest
      else (k, v) :: push rest ext pats
  end.

Definition FILE_EXTENSIONS_of (table : list (string * LanguageConfig))
  : ExtensionMap :=
  fold_left
    (fun acc lang =>
       fold_left (fun acc ext => push acc ext (patterns lang))
         (extensions lang) acc)
    (map snd table) [].

Definition FILE_EXTENSIONS : ExtensionMap := FILE_EXTENSIONS_of TEST_PATTERNS.

(** The languages that list [ext], once for every time they list it, in
    the order of the table. *)
Definition languages_of (ext : string) (langs : list LanguageConfig)
  : list LanguageConfig :=
  flat_map
    (fun lang =>
       map (fun _ => lang) (filter (String.eqb ext) (extensions lang)))
    langs.

(** What [acc[ext]] holds once the patterns of some languages have been
    pushed. *)
Definition pushed (before : option (list string))
    (langs : list LanguageConfig) : option (list string) :=
  match before, langs with
  | None, [] => None
  | _, _ =>
      Some ((match before with Some v => v | None => [] end)
            ++ flat_map patterns langs)%list
  end.

End Patterns.

(* ================================================================== *)
(** ** The history of the background controller                        *)
(* ================================================================== *)

Module BackgroundController.

(** [storage.getLocal(key, defaultValue)]: the stored value, or the
    default when the key is not set. *)
Definition getLocal {A} (stored : option A) (defaultValue : A) : A :=
  match stored with
  | Some value => value
  | None => defaultValue
  end.

(** [saveToHistory], on the value stored under the history key, when
    the storage calls succeed: the new entry goes first and the list is
    cut to 100 entries. *)
Definition saveToHistory {A} (stored : option (list A)) (entry : A)
  : option (list A) :=
  let history := getLocal stored [] in
  let history := entry :: history in
  let trimmedHistory := firstn 100 history in
  Some trimmedHistory.

End BackgroundController.

(* ================================================================== *)
(** ** The shape of the compiled patterns                              *)
(* ================================================================== *)

Module RegexShape.

Import Regex.

(** The items begin with a literal dot. *)
Definition dot_first (r : list item) : bool :=
  match r with
  | One (AChar c) :: _ => Ascii.eqb c "."
  | _ => false
  end.

(** The items begin with a literal dot, characters other than [/], and
    a [/]: what the translations make of a leading [**/]. *)
Definition dotted_directory_first (r : list item) : bool :=
  match r with
  | One (AChar c) :: Star ANotSlash :: One (AChar d) :: _ =>
      Ascii.eqb c "." && Ascii.eqb d "/"
  | _ => false
  end.

Definition compiles_to (shape : list item -> bool)
    (compiled : option regex) : bool :=
  match compiled with
  | Some r => shape (items r)
  | None => false
  end.

End RegexShape.

(* ================================================================== *)
(** ** Inputs of the scenarios                                         *)
(* ================================================================== *)

Module Scenarios.

Import TestAnalysisService.

(** A changed file as the GitHub service reports it. *)
Definition github_file (filename : string) (additions deletions : Z)
  : ChangedFile :=
  mkChangedFile (Some filename) None (Some additions) (Some deletions)
    (Some (additions + deletions)%Z).

Definition latest_js : ChangedFile := github_file "src/latest.js" 3 1.

Definition vendor_helper : ChangedFile :=
  github_file "vendor/lib/test_helper.js" 5 0.

Definition build_output : ChangedFile := github_file "build/app.js" 5 0.

(** Scenario B: one source file with 80 added lines, no test anywhere. *)
Definition a_js : ChangedFile := github_file "src/a.js" 80 0.

Definition a_test_js : ChangedFile := github_file "src/a.test.js" 4 0.

Definition a_spec_js : ChangedFile := github_file "src/a.spec.js" 4 0.

(** Two source files whose candidate paths meet in "x/test/a.js". *)
Definition x_a_js : ChangedFile := github_file "x/a.js" 1 0.

Definition x_src_a_js : ChangedFile := github_file "x/src/a.js" 1 0.

Definition x_test_a_js : ChangedFile := github_file "x/test/a.js" 1 0.

(** A changed file with neither [filename] nor [path]. *)
Definition nameless : ChangedFile := mkChangedFile None None None None None.

(** A source file at the root of the repository and its test. *)
Definition index_js : ChangedFile := github_file "index.js" 12 0.

Definition index_test_js : ChangedFile := github_file "index.test.js" 6 0.

(** A path that the compiled patterns do accept. *)
Definition dotted_test : ChangedFile := github_file "a.b/c.test.js" 2 0.

Import TestAnalyzer.

Definition change_of (fileName extension : string) : CodeChange :=
  mkCodeChange None fileName extension "modified" [] [] [].



(** The [reason] that marks an entry of the alternative detection. *)
Definition alternative_reason : string :=
  "Alternative detection: contains test indicators".



Definition foo_test : TestFile :=
  mkTestFile "src/foo.test.js" "javascript" "unknown" "unit" 60
    alternative_reason (MethodNames ["test1"; "test2"; "test3"]).

End Scenarios.

(* ================================================================== *)
(** ** Strings: split, join and membership                             *)
(* ================================================================== *)

Section SplitJoin.

Variable sep : ascii.

Lemma split_not_nil (s : string) : JS.split sep s <> [].
Proof.
  destruct s as [|c s]; simpl; [discriminate|].
  destruct (Ascii.eqb c sep); [discriminate|].
  destruct (JS.split sep s); discriminate.
Qed.

Lemma split_cons_other (c : ascii) (s : string) :
  Ascii.eqb c sep = false ->
  exists h t, JS.split sep s = h :: t /\
              JS.split sep (String c s) = String c h :: t.
Proof.
  intros Hc. simpl. rewrite Hc.
  destruct (JS.split sep s) as [|h t] eqn:E.
  - exfalso. exact (split_not_nil s E).
  - exists h, t. split; reflexivity.
Qed.

Lemma split_app_sep (s t : string) :
  JS.split sep (s ++ String sep t) = (JS.split sep s ++ JS.split sep t)%list.
Proof.
  induction s as [|c s IH].
  - simpl. rewrite Ascii.eqb_refl. reflexivity.
  - change (String c s ++ String sep t) with (String c (s ++ String sep t)).
    destruct (Ascii.eqb c sep) eqn:Hc.
    + simpl. rewrite Hc, IH. reflexivity.
    + destruct (split_cons_other c s Hc) as (h & tl & Hs & Hcs).
      rewrite Hcs. simpl. rewrite Hc, IH, Hs. reflexivity.
Qed.

Lemma split_no_sep (s : string) :
  JS.has_char sep s = false -> JS.split sep s = [s].
Proof.
  induction s as [|c s IH]; simpl; intros H; [reflexivity|].
  apply orb_false_iff in H. destruct H as [Hc Hs].
  rewrite Hc, (IH Hs). reflexivity.
Qed.

Lemma join_cons_char (c : ascii) (h : string) (t : list string) (j : string) :
  JS.join j (String c h :: t) = String c (JS.join j (h :: t)).
Proof. destruct t; reflexivity. Qed.

Lemma join_split (s : string) :
  JS.join (String sep EmptyString) (JS.split sep s) = s.
Proof.
  induction s as [|c s IH]; [reflexivity|].
  destruct (Ascii.eqb c sep) eqn:Hc.
  - simpl JS.split. rewrite Hc.
    destruct (JS.split sep s) as [|h t] eqn:E.
    + exfalso. exact (split_not_nil s E).
    + apply Ascii.eqb_eq in Hc. subst c.
      change (JS.join (String sep "") ("" :: h :: t))
        with (String sep (JS.join (String sep "") (h :: t))).
      rewrite IH. reflexivity.
  - destruct (split_cons_other c s Hc) as (h & t & Hs & Hcs).
    rewrite Hcs, join_cons_char, <- Hs, IH. reflexivity.
Qed.

Lemma split_join (l : list string) :
  l <> [] ->
  Forall (fun seg => JS.has_char sep seg = false) l ->
  JS.split sep (JS.join (String sep EmptyString) l) = l.
Proof.
  induction l as [|x l IH]; intros Hne Hall; [congruence|].
  inversion Hall as [|? ? Hx Hl]; subst.
  destruct l as [|y l].
  - simpl. apply split_no_sep. exact Hx.
  - change (JS.join (String sep "") (x :: y :: l))
      with (x ++ String sep (JS.join (String sep "") (y :: l))).
    rewrite split_app_sep, (split_no_sep x Hx), IH; [reflexivity| |exact Hl].
    discriminate.
Qed.

End SplitJoin.

Lemma last_snoc {A} (l : list A) (x d : A) : last (l ++ [x]) d = x.
Proof.
  induction l as [|y l IH]; [reflexivity|].
  simpl. destruct (l ++ [x])%list eqn:E; [|exact IH].
  destruct l; discriminate.
Qed.

Lemma removelast_snoc {A} (l : list A) (x : A) : removelast (l ++ [x]) = l.
Proof.
  induction l as [|y l IH]; [reflexivity|].
  simpl. destruct (l ++ [x])%list eqn:E.
  - destruct l; discriminate.
  - rewrite IH. reflexivity.
Qed.

Lemma indexOf_first (pre post : list string) (x : string) :
  ~ In x pre -> JS.indexOf (pre ++ x :: post) x = Some (length pre).
Proof.
  induction pre as [|y pre IH]; intros Hn; simpl.
  - rewrite String.eqb_refl. reflexivity.
  - destruct (String.eqb y x) eqn:E.
    + apply String.eqb_eq in E. exfalso. apply Hn. left. exact E.
    + rewrite IH; [reflexivity|]. intros H. apply Hn. right. exact H.
Qed.

Lemma indexOf_absent (l : list string) (x : string) :
  ~ In x l -> JS.indexOf l x = None.
Proof.
  induction l as [|y l IH]; intros Hn; simpl; [reflexivity|].
  destruct (String.eqb y x) eqn:E.
  - apply String.eqb_eq in E. exfalso. apply Hn. left. exact E.
  - rewrite IH; [reflexivity|]. intros H. apply Hn. right. exact H.
Qed.

Lemma set_index_middle (pre post : list string) (x v : string) :
  JS.set_index (pre ++ x :: post) (length pre) v = (pre ++ v :: post)%list.
Proof.
  induction pre as [|y pre IH]; simpl; [reflexivity|].
  rewrite IH. reflexivity.
Qed.

Lemma has_char_app (c : ascii) (s t : string) :
  JS.has_char c (s ++ t) = JS.has_char c s || JS.has_char c t.
Proof.
  induction s as [|a s IH]; simpl; [reflexivity|].
  rewrite IH, orb_assoc. reflexivity.
Qed.

(* ================================================================== *)
(** ** The test path generator                                         *)
(* ================================================================== *)

Section GenerateTestPaths.

Import TestAnalysisService.

Lemma dotted_name_not_src (name ext : string) : name ++ "." ++ ext <> "src".
Proof.
  destruct name as [|a [|b [|c [|d name]]]]; simpl; discriminate.
Qed.

Lemma split_dot_filename (name ext : string) :
  JS.has_char "." ext = false ->
  JS.split "." (name ++ "." ++ ext) = (JS.split "." name ++ [ext])%list.
Proof.
  intros Hext.
  change (name ++ "." ++ ext) with (name ++ String "." ext).
  rewrite split_app_sep, (split_no_sep "." ext Hext). reflexivity.
Qed.

Lemma generateTestPaths_unfold (segs : list string) (name ext : string) :
  Forall (fun seg => JS.has_char "/" seg = false) segs ->
  JS.has_char "/" name = false ->
  JS.has_char "/" ext = false ->
  JS.has_char "." ext = false ->
  let filename := name ++ "." ++ ext in
  let dir := JS.join "/" segs in
  let parts := (segs ++ [filename])%list in
  _generateTestPaths (JS.join "/" parts) =
  List.app
    [ dir ++ "/" ++ name ++ ".test." ++ ext;
      dir ++ "/" ++ name ++ ".spec." ++ ext;
      dir ++ "/__tests__/" ++ filename;
      dir ++ "/__tests__/" ++ name ++ ".test." ++ ext;
      dir ++ "/tests/" ++ filename;
      dir ++ "/test/" ++ filename ]
    match JS.indexOf parts "src" with
    | Some srcIndex =>
        [ JS.join "/" (JS.set_index parts srcIndex "test");
          JS.join "/" (JS.set_index parts srcIndex "tests") ]
    | None => []
    end.
Proof.
  intros Hsegs Hname Hext Hdot filename dir parts.
  assert (Hparts : JS.split "/" (JS.join "/" parts) = parts).
  { apply split_join.
    - subst parts. destruct segs; discriminate.
    - subst parts. apply Forall_app. split; [exact Hsegs|].
      constructor; [|constructor].
      subst filename.
      rewrite !has_char_app, Hname, Hext. reflexivity. }
  unfold _generateTestPaths. rewrite Hparts.
  unfold JS.slice_init. subst parts.
  rewrite last_snoc, removelast_snoc.
  subst filename. rewrite (split_dot_filename name ext Hdot).
  rewrite last_snoc, removelast_snoc, join_split.
  reflexivity.
Qed.

(** The shape of the candidates. For a source path made of directory
    segments and a file name [name.ext], [_generateTestPaths] returns, in
    this order: the directory followed by a slash and the [.test.ext]
    and [.spec.ext] names, the [__tests__]
    directory with the file name unchanged and with its [.test] variant,
    the [tests] and the [test] subdirectory, and then, when a segment is
    exactly [src], the path with the leftmost such segment replaced by
    [test] and the one with it replaced by [tests]; without such a
    segment the six paths are all. *)
Lemma generateTestPaths_shape
    (segs : list string) (name ext : string) :
  Forall (fun seg => JS.has_char "/" seg = false) segs ->
  JS.has_char "/" name = false ->
  JS.has_char "/" ext = false ->
  JS.has_char "." ext = false ->
  let filename := name ++ "." ++ ext in
  let dir := JS.join "/" segs in
  let sourcePath := JS.join "/" (segs ++ [filename]) in
  let sameTree :=
    [ dir ++ "/" ++ name ++ ".test." ++ ext;
      dir ++ "/" ++ name ++ ".spec." ++ ext;
      dir ++ "/__tests__/" ++ filename;
      dir ++ "/__tests__/" ++ name ++ ".test." ++ ext;
      dir ++ "/tests/" ++ filename;
      dir ++ "/test/" ++ filename ] in
  (forall pre post,
      segs = (pre ++ "src" :: post)%list -> ~ In "src" pre ->
      _generateTestPaths sourcePath =
      (sameTree ++
       [ JS.join "/" (pre ++ "test" :: post ++ [filename]);
         JS.join "/" (pre ++ "tests" :: post ++ [filename]) ])%list)
  /\ (~ In "src" segs -> _generateTestPaths sourcePath = sameTree).
Proof.
  intros Hsegs Hname Hext Hdot filename dir sourcePath sameTree.
  pose proof (generateTestPaths_unfold segs name ext Hsegs Hname Hext Hdot)
    as Hgen.
  cbv zeta in Hgen. fold filename in Hgen. fold dir in Hgen.
  fold sourcePath in Hgen. fold sameTree in Hgen.
  split.
  - intros pre post Hsplit Hpre. rewrite Hgen. subst segs.
    assert (Hp : ((pre ++ "src" :: post) ++ [filename]
                  = pre ++ "src" :: (post ++ [filename]))%list)
      by (rewrite <- app_assoc; reflexivity).
    rewrite Hp.
    rewrite (indexOf_first pre (post ++ [filename]) "src" Hpre).
    rewrite !set_index_middle. reflexivity.
  - intros Hno. rewrite Hgen.
    rewrite indexOf_absent; [apply app_nil_r|].
    intros Hin. apply in_app_or in Hin. destruct Hin as [Hin|[Hin|[]]].
    + exact (Hno Hin).
    + exact (dotted_name_not_src name ext Hin).
Qed.

Lemma generateTestPaths_shape_example :
  _generateTestPaths "x/src/y/src/a.b.js" =
  [ "x/src/y/src/a.b.test.js"; "x/src/y/src/a.b.spec.js";
    "x/src/y/src/__tests__/a.b.js"; "x/src/y/src/__tests__/a.b.test.js";
    "x/src/y/src/tests/a.b.js"; "x/src/y/src/test/a.b.js";
    "x/test/y/src/a.b.js"; "x/tests/y/src/a.b.js" ].
Proof.
  refine (proj1 (generateTestPaths_shape
                   ["x"; "src"; "y"; "src"] "a.b" "js" _ _ _ _)
            ["x"] ["y"; "src"] _ _).
  - repeat constructor.
  - reflexivity.
  - reflexivity.
  - reflexivity.
  - reflexivity.
  - simpl. intros [H|[]]. discriminate H.
Defined.

End GenerateTestPaths.

(* ================================================================== *)
(** ** Classification of changed files in TestAnalysisService          *)
(* ================================================================== *)

Section Classification.

Import TestAnalysisService Scenarios.

Lemma Set_of_fresh {A} (l : list A) (k : nat) (seen : list nat) :
  (forall r, In r seen -> (r < k)%nat) ->
  Set_of seen (combine (seq k (length l)) l) = combine (seq k (length l)) l.
Proof.
  revert k seen.
  induction l as [|x l IH]; intros k seen Hseen; [reflexivity|].
  simpl.
  assert (Hk : existsb (Nat.eqb k) seen = false).
  { destruct (existsb (Nat.eqb k) seen) eqn:E; [|reflexivity].
    apply existsb_exists in E. destruct E as (r & Hr & Heq).
    apply Nat.eqb_eq in Heq. subst r.
    specialize (Hseen k Hr). lia. }
  rewrite Hk. f_equal. apply IH.
  intros r [Hr|Hr]; [subst; lia|].
  specialize (Hseen r Hr). lia.
Qed.

Lemma map_snd_combine_seq {A} (l : list A) (k : nat) :
  map snd (combine (seq k (length l)) l) = l.
Proof.
  revert k. induction l as [|x l IH]; intros k; [reflexivity|].
  simpl. rewrite IH. reflexivity.
Qed.

(** [new Set] over fresh objects removes nothing: [identifiedTests] is
    the concatenation of the two lists, duplicates of a path included. *)
Lemma Set_of_fresh_objects {A} (l : list A) :
  map snd (Set_of [] (fresh_objects l)) = l.
Proof.
  unfold fresh_objects.
  rewrite Set_of_fresh; [apply map_snd_combine_seq|].
  intros r [].
Qed.

Lemma file_risks_defined (changedFiles : list ChangedFile) :
  (forall f, In f changedFiles -> raw_name f <> None) ->
  exists per_file, file_risks changedFiles = Some per_file.
Proof.
  induction changedFiles as [|f files IH]; intros H; simpl.
  - exists []. reflexivity.
  - assert (Hf : raw_name f <> None) by (apply H; left; reflexivity).
    unfold file_risk. destruct (raw_name f) as [filename|]; [|congruence].
    destruct IH as (per_file & E).
    { intros g Hg. apply H. right. exact Hg. }
    rewrite E. eexists. reflexivity.
Qed.

(** [_analyzeRisk] returns when every changed file has a name. *)
Lemma analyzeRisk_defined (changedFiles : list ChangedFile) :
  (forall f, In f changedFiles -> raw_name f <> None) ->
  exists riskAnalysis, _analyzeRisk changedFiles = Some riskAnalysis.
Proof.
  intros H. unfold _analyzeRisk.
  destruct (file_risks_defined changedFiles H) as (per_file & E).
  rewrite E. eexists. reflexivity.
Qed.

Lemma identifyTests_nonempty (file : ChangedFile) (rest : list ChangedFile) :
  identifyTests (file :: rest) =
  option_map (result_of (file :: rest)) (_analyzeRisk (file :: rest)).
Proof.
  unfold identifyTests, result_of.
  destruct (_analyzeRisk (file :: rest)); [|reflexivity].
  cbv zeta. rewrite Set_of_fresh_objects. reflexivity.
Qed.

(** [identifyTests] returns a result when every changed file has a
    name. *)
Lemma identifyTests_defined (changedFiles : list ChangedFile) :
  changedFiles <> [] ->
  (forall f, In f changedFiles -> raw_name f <> None) ->
  exists riskAnalysis,
    identifyTests changedFiles = Some (result_of changedFiles riskAnalysis).
Proof.
  intros Hne H. destruct changedFiles as [|f rest]; [congruence|].
  destruct (analyzeRisk_defined (f :: rest) H) as (r & E).
  exists r. rewrite identifyTests_nonempty, E. reflexivity.
Qed.

Lemma identifyTests_result (changedFiles : list ChangedFile)
    (result : AnalysisResult) :
  changedFiles <> [] ->
  identifyTests changedFiles = Some result ->
  exists riskAnalysis, result = result_of changedFiles riskAnalysis.
Proof.
  intros Hne E. destruct changedFiles as [|f rest]; [congruence|].
  rewrite identifyTests_nonempty in E.
  destruct (_analyzeRisk (f :: rest)) as [r|]; [|discriminate E].
  exists r. simpl in E. congruence.
Qed.

Lemma identifyExistingTests_In (changedFiles : list ChangedFile)
    (file : ChangedFile) :
  In file changedFiles ->
  _isTestFile (name_of file) = true ->
  In (mkTestEntry (name_of file) existing None
        (_detectLanguage (name_of file)) 1 "Direct test file modification")
     (_identifyExistingTests changedFiles).
Proof.
  intros Hin Htest. unfold _identifyExistingTests.
  apply in_flat_map. exists file. split; [exact Hin|].
  rewrite Htest. left. reflexivity.
Qed.

Lemma identifySourceFiles_spec (changedFiles : list ChangedFile)
    (s : SourceFile) :
  In s (_identifySourceFiles changedFiles) ->
  _isTestFile (src_path s) = false /\ _isCodeFile (src_path s) = true.
Proof.
  unfold _identifySourceFiles. intros Hin.
  apply in_map_iff in Hin. destruct Hin as (f & Hs & Hf).
  apply filter_In in Hf. destruct Hf as [_ Hf].
  apply andb_true_iff in Hf. destruct Hf as [Ht Hc].
  subst s. simpl. split; [|exact Hc].
  apply negb_true_iff. exact Ht.
Qed.

Lemma isTestFile_substring (filename : string) :
  JS.includes (JS.toLowerCase filename) "test" = true \/
  JS.includes (JS.toLowerCase filename) "spec" = true ->
  _isTestFile filename = true.
Proof.
  intros H. unfold _isTestFile.
  destruct (matches_language_pattern filename); [reflexivity|].
  destruct H as [H|H]; rewrite H; [reflexivity|].
  rewrite orb_true_r. reflexivity.
Qed.

(** C10. A changed file whose lower-cased path contains "test" or
    "spec" anywhere is a test file for the service, whatever the glob
    patterns say: it is emitted as an existing test with confidence 1.0,
    and no source file has its path. When every changed file has a
    name, [identifyTests] returns a result that lists the entry among
    its existing and its identified tests, and not among its source
    files. *)
Theorem test_or_spec_substring_is_test
    (changedFiles : list ChangedFile) (file : ChangedFile) :
  In file changedFiles ->
  JS.includes (JS.toLowerCase (name_of file)) "test" = true \/
  JS.includes (JS.toLowerCase (name_of file)) "spec" = true ->
  let entry :=
    mkTestEntry (name_of file) existing None
      (_detectLanguage (name_of file)) 1 "Direct test file modification" in
  _isTestFile (name_of file) = true
  /\ In entry (_identifyExistingTests changedFiles)
  /\ (forall s, In s (_identifySourceFiles changedFiles) ->
                src_path s <> name_of file)
  /\ ((forall f, In f changedFiles -> raw_name f <> None) ->
      exists result,
        identifyTests changedFiles = Some result
        /\ existingTests result = Some (_identifyExistingTests changedFiles)
        /\ sourceFiles result = Some (_identifySourceFiles changedFiles)
        /\ In entry (identifiedTests result)).
Proof.
  intros Hin Hsub entry.
  pose proof (isTestFile_substring _ Hsub) as Htest.
  pose proof (identifyExistingTests_In changedFiles file Hin Htest) as Hentry.
  fold entry in Hentry.
  split; [exact Htest|]. split; [exact Hentry|]. split.
  - intros s Hs Heq.
    apply identifySourceFiles_spec in Hs. destruct Hs as [Hs _].
    rewrite Heq, Htest in Hs. discriminate.
  - intros Hnamed.
    assert (Hne : changedFiles <> [])
      by (destruct changedFiles; [destruct Hin|discriminate]).
    destruct (identifyTests_defined changedFiles Hne Hnamed) as (r & E).
    exists (result_of changedFiles r). split; [exact E|].
    split; [reflexivity|]. split; [reflexivity|].
    unfold result_of. cbv zeta. cbn [identifiedTests].
    apply in_or_app. left. exact Hentry.
Qed.

Lemma test_or_spec_substring_is_test_witness :
  matches_language_pattern "src/latest.js" = false
  /\ _isTestFile "src/latest.js" = true
  /\ In (mkTestEntry "src/latest.js" existing None "javascript" 1
           "Direct test file modification")
        (_identifyExistingTests [latest_js])
  /\ _identifySourceFiles [latest_js] = [].
Proof.
  pose proof (test_or_spec_substring_is_test [latest_js] latest_js
                (or_introl eq_refl) (or_introl eq_refl)) as H.
  cbv zeta in H. destruct H as (Ht & Hin & _ & _).
  split; [vm_compute; reflexivity|].
  split; [exact Ht|].
  split; [exact Hin|].
  vm_compute. reflexivity.
Defined.

(** C7, as the code has it. A path that contains an entry of the ignore
    list is never a source file: [_isCodeFile] looks at the list first
    and answers false. The list plays no part in the identification of
    tests: when [_isTestFile] accepts the path, it is reported as an
    existing test. *)
Theorem ignored_path_is_never_source
    (changedFiles : list ChangedFile) (file : ChangedFile)
    (ignored : string) :
  In file changedFiles ->
  In ignored ignoredPaths ->
  JS.includes (name_of file) ignored = true ->
  _isCodeFile (name_of file) = false
  /\ (forall s, In s (_identifySourceFiles changedFiles) ->
                src_path s <> name_of file)
  /\ (_isTestFile (name_of file) = true ->
      In (mkTestEntry (name_of file) existing None
            (_detectLanguage (name_of file)) 1
            "Direct test file modification")
         (_identifyExistingTests changedFiles)).
Proof.
  intros Hin Hign Hinc.
  assert (Hcode : _isCodeFile (name_of file) = false).
  { unfold _isCodeFile, JS.some.
    assert (E : existsb (fun i => JS.includes (name_of file) i) ignoredPaths
                = true).
    { apply existsb_exists. exists ignored. split; assumption. }
    rewrite E. reflexivity. }
  split; [exact Hcode|]. split.
  - intros s Hs Heq. apply identifySourceFiles_spec in Hs.
    destruct Hs as [_ Hs]. rewrite Heq, Hcode in Hs. discriminate.
  - intros Htest. apply identifyExistingTests_In; assumption.
Qed.

Lemma ignored_path_is_never_source_witness :
  _isCodeFile "build/app.js" = false
  /\ forall s, In s (_identifySourceFiles [build_output; vendor_helper]) ->
               src_path s <> "build/app.js".
Proof.
  pose proof (ignored_path_is_never_source [build_output; vendor_helper]
                build_output "build"
                (or_introl eq_refl)
                (or_intror (or_intror (or_intror (or_introl eq_refl))))
                eq_refl) as H.
  destruct H as (Hc & Hs & _). split; [exact Hc|exact Hs].
Defined.

(** C7, counterexample: the path of scenario D is classified as a test.
    It is an existing test with confidence 1.0 in the result. *)
Lemma vendor_test_helper_is_classified_test :
  _isTestFile "vendor/lib/test_helper.js" = true
  /\ option_map identifiedTests (identifyTests [vendor_helper]) =
     Some [ mkTestEntry "vendor/lib/test_helper.js" existing None
              "javascript" 1 "Direct test file modification" ]
  /\ ~ (forall e, In e (_identifyExistingTests [vendor_helper]) ->
                  test_path e <> "vendor/lib/test_helper.js").
Proof.
  split; [vm_compute; reflexivity|].
  split; [vm_compute; reflexivity|].
  intros H.
  apply (H (mkTestEntry "vendor/lib/test_helper.js" existing None
              "javascript" 1 "Direct test file modification")).
  - vm_compute. left. reflexivity.
  - reflexivity.
Qed.

End Classification.

(* ================================================================== *)
(** ** The result of identifyTests                                     *)
(* ================================================================== *)

Section IdentifyTests.

Import TestAnalysisService Scenarios.

(** C1, as the code has it. For an empty list of changed files
    [identifyTests] returns at once, without failing: no identified
    test, no recommendation, a coverage of 0, and no risk analysis,
    source files or statistics at all. *)
Theorem identifyTests_empty :
  exists result,
    identifyTests [] = Some result
    /\ identifiedTests result = []
    /\ recommendations result = []
    /\ coverage result = 0%Z
    /\ riskAnalysis result = None
    /\ sourceFiles result = None
    /\ statistics result = None.
Proof. eexists. repeat split. Qed.

(** C1, counterexample: on the empty list the coverage is not 100 and
    there is no risk score of 0, since there is no risk analysis. *)
Lemma identifyTests_empty_not_full_coverage :
  ~ (exists result,
        identifyTests [] = Some result
        /\ identifiedTests result = []
        /\ coverage result = 100%Z
        /\ option_map totalRisk (riskAnalysis result) = Some 0%Z
        /\ recommendations result = []).
Proof.
  intros (result & E & _ & Hcov & _).
  simpl in E. injection E as E. subst result.
  simpl in Hcov. discriminate Hcov.
Qed.

Lemma flat_map_nil {A B} (f : A -> list B) (l : list A) :
  (forall x, In x l -> f x = []) -> flat_map f l = [].
Proof.
  induction l as [|x l IH]; intros H; [reflexivity|].
  simpl. rewrite (H x (or_introl eq_refl)). apply IH.
  intros y Hy. apply H. right. exact Hy.
Qed.

Lemma generateTestPaths_cons (sourcePath : string) :
  exists first rest, _generateTestPaths sourcePath = first :: rest.
Proof.
  unfold _generateTestPaths. cbv zeta. eexists. eexists. reflexivity.
Qed.

(** Every source file gets a suggested entry, whether a test was found
    for it or not, so every source path is among the [sourceFile]s of
    the related tests. *)
Lemma findRelatedTests_covers_sources
    (sources : list SourceFile) (allFiles : list ChangedFile)
    (s : SourceFile) :
  In s sources ->
  In (Some (src_path s))
     (map test_sourceFile (_findRelatedTests sources allFiles)).
Proof.
  intros Hin. apply in_map_iff.
  destruct (generateTestPaths_cons (src_path s)) as (first & rest & Hgen).
  exists (mkTestEntry first suggested (Some (src_path s)) (src_language s)
            (6 # 10) "Suggested test file based on naming convention").
  split; [reflexivity|].
  unfold _findRelatedTests. apply in_flat_map. exists s.
  split; [exact Hin|].
  apply in_or_app. right. rewrite Hgen. left. reflexivity.
Qed.

(** The recommendation list is empty for every input: the suggested
    entries count as tests in [testedPaths]. *)
Lemma generateRecommendations_nil
    (sources : list SourceFile) (allFiles : list ChangedFile) :
  _generateRecommendations sources (_findRelatedTests sources allFiles) = [].
Proof.
  unfold _generateRecommendations. apply flat_map_nil.
  intros s Hs.
  assert (E : existsb (fun p => option_string_eqb p (src_path s))
                (map test_sourceFile (_findRelatedTests sources allFiles))
              = true).
  { apply existsb_exists. exists (Some (src_path s)).
    split; [apply findRelatedTests_covers_sources; exact Hs|].
    simpl. apply String.eqb_refl. }
  rewrite E. reflexivity.
Qed.

Lemma identifyTests_never_recommends (changedFiles : list ChangedFile)
    (result : AnalysisResult) :
  identifyTests changedFiles = Some result ->
  recommendations result = [].
Proof.
  intros E. destruct changedFiles as [|f rest].
  - simpl in E. injection E as E. subst result. reflexivity.
  - apply identifyTests_result in E; [|discriminate].
    destruct E as (r & E). subst result.
    unfold result_of. cbv zeta. cbn [recommendations].
    apply generateRecommendations_nil.
Qed.

(** A changed file without a name is skipped by the classification
    ([|| '']) and makes [_analyzeRisk], and with it [identifyTests],
    throw. *)
Lemma identifyTests_nameless_file :
  _identifyExistingTests [a_js; nameless] = []
  /\ identifyTests [a_js; nameless] = None.
Proof. split; vm_compute; reflexivity. Qed.

(** C3. Scenario B on the code: "src/a.js" with 80 added lines and no
    test anywhere is a source file without an existing or related test,
    and the result holds no recommendation for it. *)
Theorem scenario_B_yields_no_recommendation :
  exists result,
    identifyTests [a_js] = Some result
    /\ sourceFiles result =
       Some [ mkSourceFile "src/a.js" "javascript" 80 0 80 ]
    /\ existingTests result = Some []
    /\ relatedTests result =
       Some [ mkTestEntry "src/a.test.js" suggested (Some "src/a.js")
                "javascript" (6 # 10)
                "Suggested test file based on naming convention" ]
    /\ recommendations result = [].
Proof.
  destruct (identifyTests_defined [a_js]) as (r & E); [discriminate| |].
  { intros f [Hf|[]]. subst f. discriminate. }
  exists (result_of [a_js] r). split; [exact E|].
  repeat split; vm_compute; reflexivity.
Qed.

(** C2. A source file changed together with its [.test] and its [.spec]
    file: both count as related tests of the one source file, and the
    coverage is 200. *)
Theorem calculateCoverage_exceeds_100 :
  exists result,
    identifyTests [a_js; a_test_js; a_spec_js] = Some result
    /\ option_map (@length SourceFile) (sourceFiles result) = Some 1%nat
    /\ coverage result = 200%Z
    /\ ~ (0 <= coverage result <= 100)%Z.
Proof.
  destruct (identifyTests_defined [a_js; a_test_js; a_spec_js])
    as (r & E); [discriminate| |].
  { intros f [Hf|[Hf|[Hf|[]]]]; subst f; discriminate. }
  exists (result_of [a_js; a_test_js; a_spec_js] r). split; [exact E|].
  assert (C : coverage (result_of [a_js; a_test_js; a_spec_js] r) = 200%Z)
    by (vm_compute; reflexivity).
  split; [vm_compute; reflexivity|].
  split; [exact C|].
  rewrite C. lia.
Qed.

End IdentifyTests.

(* ================================================================== *)
(** ** The glob translation                                            *)
(* ================================================================== *)

Section GlobTranslation.

(** Every pattern of the registry and of [loadTestPatterns] compiles to
    an expression of the modelled fragment, with each of the three
    translations. *)
Lemma registry_patterns_compile :
  forallb
    (fun entry =>
       forallb
         (fun pattern =>
            match TestAnalysisService._globToRegex pattern,
                  TestAnalyzer.globToRegex pattern,
                  TestAnalyzer.globToRegex_first pattern with
            | Some _, Some _, Some _ => true
            | _, _, _ => false
            end)
         (patterns (snd entry)))
    (TEST_PATTERNS ++ TestAnalyzer.loadTestPatterns) = true.
Proof. vm_compute. reflexivity. Qed.

(** The star of the text [.*] that replaces [**] is itself replaced by
    the next step, and the dot that is left is escaped by the last one:
    [**] ends up as a literal dot followed by characters other than
    [/]. *)
Lemma globToRegex_source_of_test_pattern :
  TestAnalysisService._globToRegex_source "**/*.test.js"
  = "\.[^/]*/[^/]*\.test\.js"
  /\ TestAnalyzer.globToRegex_source "**/*.test.js"
     = "\.[^/]*/[^/]*\.test\.js"
  /\ TestAnalyzer.globToRegex_first_source "**/*.test.js"
     = ".[^/]*/[^/]*\.test\.js".
Proof. repeat split. Qed.

(** C5. The registry pattern [**/*.test.js] and the path
    "src/a.test.js": the glob matches the path, with [**] standing for
    the one segment [src], and the matchers compiled by
    [TestAnalysisService._globToRegex] and by [TestAnalyzer.globToRegex]
    reject it; no pattern of the registry accepts it. The earlier
    [globToRegex] of [TestAnalyzer] rejects "a/b/c.test.js", where [**]
    stands for two segments. The expression of the service is not
    anchored either: it accepts "a.b/c.test.jsx", which the glob does
    not match. *)
Theorem globToRegex_is_not_glob_semantics :
  In "**/*.test.js" (flat_map (fun entry => patterns (snd entry)) TEST_PATTERNS)
  /\ GlobSpec.glob_match "**/*.test.js" "src/a.test.js" = true
  /\ TestAnalysisService.pattern_test "**/*.test.js" "src/a.test.js" = false
  /\ TestAnalysisService.matches_language_pattern "src/a.test.js" = false
  /\ TestAnalyzer.regex_test (TestAnalyzer.globToRegex "**/*.test.js")
       "src/a.test.js" = false
  /\ GlobSpec.glob_match "**/*.test.js" "a/b/c.test.js" = true
  /\ TestAnalyzer.regex_test (TestAnalyzer.globToRegex_first "**/*.test.js")
       "a/b/c.test.js" = false
  /\ GlobSpec.glob_match "**/*.test.js" "a.b/c.test.jsx" = false
  /\ TestAnalysisService.pattern_test "**/*.test.js" "a.b/c.test.jsx" = true.
Proof.
  split; [left; reflexivity|].
  repeat split; vm_compute; reflexivity.
Qed.

End GlobTranslation.

(* ================================================================== *)
(** ** The fallback detection                                          *)
(* ================================================================== *)

Section Fallback.

Import TestAnalyzer Scenarios.

Lemma patternTests_reason (files : list string) (t : TestFile) :
  In t (patternTests files) ->
  exists language pattern,
    tf_reason t = "Matches " ++ language ++ " test pattern: " ++ pattern.
Proof.
  unfold patternTests. intros Hin.
  apply in_flat_map in Hin. destruct Hin as (language & _ & Hin).
  destruct (find (fun e => String.eqb (fst e) language) loadTestPatterns)
    as [[l languageConfig]|]; [|destruct Hin].
  apply in_flat_map in Hin. destruct Hin as (pattern & _ & Hin).
  apply in_map_iff in Hin. destruct Hin as (file & Ht & _).
  exists language, pattern. subst t. reflexivity.
Qed.

Lemma alternative_reason_In (files : list string) (t : TestFile) :
  In t (findTestsAlternativeMethod files) -> tf_reason t = alternative_reason.
Proof.
  unfold findTestsAlternativeMethod. intros Hin.
  apply in_flat_map in Hin. destruct Hin as (file & _ & Hin).
  destruct (_ && _); [|destruct Hin].
  destruct Hin as [Ht|[]]. subst t. reflexivity.
Qed.

(** C6, as the code has it. In [TestAnalyzer.findExistingTests] an entry
    found by the alternative, substring-based detection is in the result
    only when the pattern pass found no test file in the whole list of
    files; the result is then the outcome of the alternative
    detection. *)
Theorem alternative_detection_only_without_pattern_match
    (files : list string) (t : TestFile) :
  In t (findExistingTests files) ->
  tf_reason t = alternative_reason ->
  patternTests files = []
  /\ findExistingTests files = findTestsAlternativeMethod files.
Proof.
  intros Hin Hreason. unfold findExistingTests in *.
  destruct (patternTests files) as [|t0 ts] eqn:E; [split; reflexivity|].
  exfalso.
  assert (Hp : In t (patternTests files)) by (rewrite E; exact Hin).
  apply patternTests_reason in Hp. destruct Hp as (language & pattern & Hp).
  rewrite Hp in Hreason. discriminate Hreason.
Qed.

Lemma alternative_detection_only_without_pattern_match_witness :
  patternTests ["src/a.test.js"; "src/a.js"] = []
  /\ findExistingTests ["src/a.test.js"; "src/a.js"] =
     [ mkTestFile "src/a.test.js" "javascript" "unknown" "unit" 60
         alternative_reason (MethodNames ["test1"; "test2"; "test3"]) ].
Proof.
  destruct (alternative_detection_only_without_pattern_match
              ["src/a.test.js"; "src/a.js"]
              (mkTestFile "src/a.test.js" "javascript" "unknown" "unit" 60
                 alternative_reason (MethodNames ["test1"; "test2"; "test3"]))
              (or_introl eq_refl) eq_refl) as [Hp Hf].
  split; [exact Hp|]. rewrite Hf. vm_compute. reflexivity.
Defined.

(** With a pattern match anywhere in the list, the result is the
    pattern pass alone. *)
Lemma findExistingTests_pattern_pass (files : list string) :
  patternTests files <> [] -> findExistingTests files = patternTests files.
Proof.
  unfold findExistingTests.
  destruct (patternTests files); [congruence|reflexivity].
Qed.

(** C6, counterexample: in [TestAnalysisService] the substring check is
    applied to every path on its own. The batch holds a path that a
    compiled pattern accepts, and "src/latest.js", accepted by no
    pattern, is a test file all the same. *)
Lemma isTestFile_fallback_despite_pattern_match :
  let batch := [dotted_test; latest_js] in
  ~ ((exists f, In f batch /\
        TestAnalysisService.matches_language_pattern
          (TestAnalysisService.name_of f) = true) ->
     forall f, In f batch ->
       TestAnalysisService._isTestFile (TestAnalysisService.name_of f) = true ->
       TestAnalysisService.matches_language_pattern
         (TestAnalysisService.name_of f) = true).
Proof.
  intros batch H.
  assert (Hex : exists f, In f batch /\
             TestAnalysisService.matches_language_pattern
               (TestAnalysisService.name_of f) = true).
  { exists dotted_test. split; [left; reflexivity|vm_compute; reflexivity]. }
  specialize (H Hex latest_js (or_intror (or_introl eq_refl))).
  assert (Ht : TestAnalysisService._isTestFile
                 (TestAnalysisService.name_of latest_js) = true)
    by (vm_compute; reflexivity).
  specialize (H Ht). vm_compute in H. discriminate H.
Qed.

End Fallback.

(* ================================================================== *)
(** ** The relevance threshold                                         *)
(* ================================================================== *)

Section Threshold.

Import TestAnalyzer Scenarios.

(** The cascade of the class gives one of four scores. *)
Lemma pair_score_values (change : CodeChange) (test : TestFile) :
  let score := fst (pair_score change test) in
  score = 90%Z \/ score = 70%Z \/ score = 60%Z \/ score = 0%Z.
Proof.
  unfold pair_score.
  destruct (JS.includes _ _); [left; reflexivity|].
  destruct (JS.includes _ _); [right; left; reflexivity|].
  destruct (areFilesRelated _ _); simpl; auto.
Qed.

Lemma relevantTests_first_In (codeChanges : list CodeChange)
    (existingTests : list TestFile) (r : RelevantTest) :
  In r (relevantTests_first codeChanges existingTests) <->
  exists change test,
    In change codeChanges /\ In test existingTests /\
    (30 < calculateTestRelevance change test)%Z /\
    r = candidate_first change test.
Proof.
  unfold relevantTests_first. rewrite in_flat_map. split.
  - intros (change & Hc & Hin). apply in_map_iff in Hin.
    destruct Hin as (test & Hr & Hf). apply filter_In in Hf.
    destruct Hf as [Ht Hs]. apply Z.gtb_lt in Hs.
    exists change, test. repeat split; auto.
  - intros (change & test & Hc & Ht & Hs & Hr).
    exists change. split; [exact Hc|]. apply in_map_iff.
    exists test. split; [auto|]. apply filter_In. split; [exact Ht|].
    apply Z.gtb_lt. exact Hs.
Qed.

Lemma relevantTests_In (codeChanges : list CodeChange)
    (existingTests : list TestFile) (r : RelevantTest) :
  In r (relevantTests codeChanges existingTests) <->
  exists change test,
    In change codeChanges /\ In test existingTests /\
    (50 < fst (pair_score change test))%Z /\
    r = candidate change test.
Proof.
  unfold relevantTests. rewrite in_flat_map. split.
  - intros (change & Hc & Hin). apply in_map_iff in Hin.
    destruct Hin as (test & Hr & Hf). apply filter_In in Hf.
    destruct Hf as [Ht Hs]. apply Z.gtb_lt in Hs.
    exists change, test. repeat split; auto.
  - intros (change & test & Hc & Ht & Hs & Hr).
    exists change. split; [exact Hc|]. apply in_map_iff.
    exists test. split; [auto|]. apply filter_In. split; [exact Ht|].
    apply Z.gtb_lt. exact Hs.
Qed.

End Threshold.

(* ================================================================== *)
(** ** Duplicates                                                      *)
(* ================================================================== *)

Section Duplicates.

Import TestAnalyzer Scenarios.

Lemma seen_spec (seen : list string) (key : string) :
  existsb (String.eqb key) seen = true <-> In key seen.
Proof.
  rewrite existsb_exists. split.
  - intros (x & Hx & E). apply String.eqb_eq in E. subst. exact Hx.
  - intros H. exists key. split; [exact H|apply String.eqb_refl].
Qed.

Lemma seen_equiv (seen1 seen2 : list string) (key : string) :
  (forall n, In n seen1 <-> In n seen2) ->
  existsb (String.eqb key) seen1 = existsb (String.eqb key) seen2.
Proof.
  intros H.
  destruct (existsb (String.eqb key) seen1) eqn:E1;
    destruct (existsb (String.eqb key) seen2) eqn:E2; try reflexivity.
  - apply seen_spec, H, seen_spec in E1. congruence.
  - apply seen_spec, H, seen_spec in E2. congruence.
Qed.

(** The filter depends on the set of seen names only. *)
Lemma removeDuplicateTests_from_equiv (tests : list RelevantTest) :
  forall seen1 seen2,
    (forall n, In n seen1 <-> In n seen2) ->
    removeDuplicateTests_from seen1 tests
    = removeDuplicateTests_from seen2 tests.
Proof.
  induction tests as [|x tests IH]; intros seen1 seen2 H; [reflexivity|].
  simpl. rewrite (seen_equiv seen1 seen2 _ H).
  destruct (existsb _ seen2); [apply IH; exact H|].
  f_equal. apply IH. intros n. simpl. rewrite H. reflexivity.
Qed.

(** An entry is kept exactly when no entry before it has its name. *)
Lemma removeDuplicateTests_from_In (tests : list RelevantTest) :
  forall seen t,
    In t (removeDuplicateTests_from seen tests) <->
    exists pre post,
      tests = (pre ++ t :: post)%list /\
      ~ In (rt_fileName t) (seen ++ map rt_fileName pre)%list.
Proof.
  induction tests as [|x tests IH]; intros seen t.
  - simpl. split; [intros []|].
    intros (pre & post & E & _). destruct pre; discriminate E.
  - simpl. destruct (existsb (String.eqb (rt_fileName x)) seen) eqn:Ex.
    + apply seen_spec in Ex. rewrite IH. split.
      * intros (pre & post & E & Hn). exists (x :: pre), post.
        split; [simpl; rewrite E; reflexivity|].
        intros Hin. apply Hn. apply in_app_or in Hin.
        apply in_or_app. destruct Hin as [Hin|[Hin|Hin]]; auto.
        left. rewrite <- Hin. exact Ex.
      * intros (pre & post & E & Hn). destruct pre as [|y pre].
        -- simpl in E. injection E as E1 E2. subst x.
           exfalso. apply Hn. apply in_or_app. left. exact Ex.
        -- simpl in E. injection E as E1 E2. subst y.
           exists pre, post. split; [exact E2|].
           intros Hin. apply Hn. apply in_app_or in Hin.
           apply in_or_app. simpl. tauto.
    + assert (Hx : ~ In (rt_fileName x) seen).
      { intros H. apply seen_spec in H. congruence. }
      simpl. rewrite IH. split.
      * intros [E|(pre & post & E & Hn)].
        -- subst t. exists [], tests. split; [reflexivity|].
           simpl. rewrite app_nil_r. exact Hx.
        -- exists (x :: pre), post. split; [simpl; rewrite E; reflexivity|].
           intros Hin. apply Hn. apply in_app_or in Hin.
           simpl. simpl in Hin. rewrite in_app_iff. tauto.
      * intros (pre & post & E & Hn). destruct pre as [|y pre].
        -- simpl in E. injection E as E1 E2. left. exact E1.
        -- simpl in E. injection E as E1 E2. subst y. right.
           exists pre, post. split; [exact E2|].
           intros Hin. apply Hn. simpl in Hin. simpl.
           rewrite in_app_iff in *. simpl. tauto.
Qed.

Lemma removeDuplicateTests_from_NoDup (tests : list RelevantTest) :
  forall seen,
    NoDup (map rt_fileName (removeDuplicateTests_from seen tests))
    /\ forall n, In n (map rt_fileName (removeDuplicateTests_from seen tests))
                 -> ~ In n seen.
Proof.
  induction tests as [|x tests IH]; intros seen.
  - simpl. split; [constructor|intros n []].
  - simpl. destruct (existsb (String.eqb (rt_fileName x)) seen) eqn:Ex.
    + apply IH.
    + assert (Hx : ~ In (rt_fileName x) seen).
      { intros H. apply seen_spec in H. congruence. }
      destruct (IH (rt_fileName x :: seen)) as [Hnd Hfresh].
      simpl. split.
      * constructor; [|exact Hnd].
        intros Hin. apply (Hfresh _ Hin). left. reflexivity.
      * intros n [E|Hin]; [subst n; exact Hx|].
        intros Hs. apply (Hfresh _ Hin). right. exact Hs.
Qed.

Lemma findIndex_before (name : string) (pre l : list RelevantTest) :
  In name (map rt_fileName pre) ->
  exists i, findIndex name (pre ++ l) = Some i /\ (i < length pre)%nat.
Proof.
  induction pre as [|y pre IH]; intros Hin; [destruct Hin|].
  simpl. destruct (String.eqb (rt_fileName y) name) eqn:E.
  - exists 0%nat. split; [reflexivity|simpl; lia].
  - destruct Hin as [Hin|Hin].
    + simpl in Hin. apply String.eqb_neq in E. contradiction.
    + destruct (IH Hin) as (i & Hi & Hlt). exists (S i).
      rewrite Hi. split; [reflexivity|simpl; lia].
Qed.

Lemma findIndex_here (x : RelevantTest) (pre l : list RelevantTest) :
  ~ In (rt_fileName x) (map rt_fileName pre) ->
  findIndex (rt_fileName x) (pre ++ x :: l) = Some (length pre).
Proof.
  induction pre as [|y pre IH]; intros Hn; simpl.
  - rewrite String.eqb_refl. reflexivity.
  - destruct (String.eqb (rt_fileName y) (rt_fileName x)) eqn:E.
    + apply String.eqb_eq in E. exfalso. apply Hn. left. exact E.
    + rewrite IH; [reflexivity|]. intros H. apply Hn. right. exact H.
Qed.

(** The filter on [findIndex] of the class is the filter with a [seen]
    set of the earlier definition. *)
Lemma uniqueTests_from (l : list RelevantTest) :
  forall pre,
    map snd
      (filter
         (fun it =>
            option_nat_eqb (findIndex (rt_fileName (snd it)) (pre ++ l))
              (fst it))
         (combine (seq (length pre) (length l)) l))
    = removeDuplicateTests_from (map rt_fileName pre) l.
Proof.
  induction l as [|x l IH]; intros pre; [reflexivity|].
  assert (Hlen : length (pre ++ [x]) = S (length pre)).
  { rewrite length_app. simpl. lia. }
  assert (Happ : (pre ++ x :: l = (pre ++ [x]) ++ l)%list).
  { rewrite <- app_assoc. reflexivity. }
  specialize (IH (pre ++ [x])%list).
  rewrite Hlen, <- Happ in IH.
  cbn [length seq combine filter fst snd removeDuplicateTests_from].
  destruct (existsb (String.eqb (rt_fileName x)) (map rt_fileName pre)) eqn:Ex.
  - apply seen_spec in Ex.
    destruct (findIndex_before (rt_fileName x) pre (x :: l) Ex)
      as (i & Hi & Hlt).
    rewrite Hi. cbn [option_nat_eqb].
    assert (Hne : Nat.eqb i (length pre) = false)
      by (apply Nat.eqb_neq; lia).
    rewrite Hne, IH.
    apply removeDuplicateTests_from_equiv.
    intros n. rewrite map_app, in_app_iff. simpl. split; [|tauto].
    intros [H|[H|[]]]; [exact H|]. rewrite <- H. exact Ex.
  - assert (Hx : ~ In (rt_fileName x) (map rt_fileName pre)).
    { intros H. apply seen_spec in H. congruence. }
    rewrite (findIndex_here x pre l Hx). cbn [option_nat_eqb].
    rewrite Nat.eqb_refl. cbn [map snd]. rewrite IH. f_equal.
    apply removeDuplicateTests_from_equiv.
    intros n. rewrite map_app, in_app_iff. simpl. tauto.
Qed.

Lemma uniqueTests_removeDuplicateTests (tests : list RelevantTest) :
  uniqueTests tests = removeDuplicateTests tests.
Proof. exact (uniqueTests_from tests []). Qed.

Lemma insert_desc_perm {A} (key : A -> Z) (x : A) (l : list A) :
  Permutation (JS.insert_desc key x l) (x :: l).
Proof.
  induction l as [|y l IH]; simpl; [apply Permutation_refl|].
  destruct (key x <? key y)%Z; [|apply Permutation_refl].
  apply perm_trans with (y :: x :: l); [apply perm_skip; exact IH|].
  apply perm_swap.
Qed.

Lemma sort_desc_perm {A} (key : A -> Z) (l : list A) :
  Permutation (JS.sort_desc key l) l.
Proof.
  induction l as [|x l IH]; simpl; [apply perm_nil|].
  apply perm_trans with (x :: JS.sort_desc key l).
  - apply insert_desc_perm.
  - apply perm_skip. exact IH.
Qed.

Lemma firstn_In_list {A} (n : nat) (l : list A) (x : A) :
  In x (firstn n l) -> In x l.
Proof.
  revert n. induction l as [|y l IH]; intros [|n] H; simpl in *; try tauto.
  destruct H as [H|H]; [left; exact H|right; exact (IH n H)].
Qed.


Lemma sorted_unique_NoDup (tests : list RelevantTest) :
  NoDup (map rt_fileName (JS.sort_desc rt_confidence
                            (removeDuplicateTests tests))).
Proof.
  apply Permutation_NoDup
    with (l := map rt_fileName (removeDuplicateTests tests)).
  - apply Permutation_map, Permutation_sym, sort_desc_perm.
  - apply removeDuplicateTests_from_NoDup.
Qed.

Lemma removeDuplicateTests_In (tests : list RelevantTest) (t : RelevantTest) :
  In t (removeDuplicateTests tests) <->
  exists pre post,
    tests = (pre ++ t :: post)%list /\
    ~ In (rt_fileName t) (map rt_fileName pre).
Proof.
  unfold removeDuplicateTests. rewrite removeDuplicateTests_from_In.
  reflexivity.
Qed.



(** In [TestAnalysisService] the set is built over objects, and nothing
    is removed: with two source files whose candidate paths meet, the
    path "x/test/a.js" is listed three times, twice as a related
    test. *)
Lemma identifiedTests_keeps_duplicates :
  map (fun e => (TestAnalysisService.test_path e,
                 TestAnalysisService.test_type e))
    (filter
       (fun e => String.eqb (TestAnalysisService.test_path e) "x/test/a.js")
       (match TestAnalysisService.identifyTests
                [x_a_js; x_src_a_js; x_test_a_js] with
        | Some result => TestAnalysisService.identifiedTests result
        | None => []
        end))
  = [ ("x/test/a.js", TestAnalysisService.existing);
      ("x/test/a.js", TestAnalysisService.related);
      ("x/test/a.js", TestAnalysisService.related) ].
Proof. vm_compute. reflexivity. Qed.

End Duplicates.

(* ================================================================== *)
(** ** Bounds of the risk score and of the coverage estimate           *)
(* ================================================================== *)

Section Bounds.

Lemma Math_round_nonneg (q : Q) : (0 <= q)%Q -> (0 <= JS.Math_round q)%Z.
Proof.
  intros H. unfold JS.Math_round.
  change 0%Z with (Qfloor 0). apply Qfloor_resp_le.
  apply Qle_trans with q; [exact H|].
  rewrite <- (Qplus_0_r q) at 1. apply Qplus_le_r. discriminate.
Qed.

Lemma Qfloor_half (k : Z) : Qfloor (inject_Z k + (1 # 2)) = k.
Proof.
  unfold Qfloor, Qplus, inject_Z. simpl.
  symmetry. apply Z.div_unique with (r := 1%Z); lia.
Qed.

Lemma Math_round_le (q : Q) (k : Z) :
  (q <= inject_Z k)%Q -> (JS.Math_round q <= k)%Z.
Proof.
  intros H. unfold JS.Math_round.
  rewrite <- (Qfloor_half k). apply Qfloor_resp_le.
  apply Qplus_le_l. exact H.
Qed.

Lemma ratio_bounds (a n k : Z) :
  (0 <= a)%Z -> (0 < n)%Z -> (a <= k * n)%Z ->
  (0 <= inject_Z a / inject_Z n)%Q /\
  (inject_Z a / inject_Z n <= inject_Z k)%Q.
Proof.
  intros Ha Hn Hk.
  assert (Hn' : (0 < inject_Z n)%Q).
  { change 0%Q with (inject_Z 0). rewrite <- Zlt_Qlt. exact Hn. }
  split.
  - apply Qle_shift_div_l; [exact Hn'|].
    rewrite Qmult_0_l. change 0%Q with (inject_Z 0).
    rewrite <- Zle_Qle. exact Ha.
  - apply Qle_shift_div_r; [exact Hn'|].
    rewrite <- inject_Z_mult, <- Zle_Qle. exact Hk.
Qed.

Import TestAnalysisService.

Lemma file_risk_bounds (file : ChangedFile) (r : string * Z * Z) :
  file_risk file = Some r -> (0 <= snd (fst r) <= 40)%Z.
Proof.
  unfold file_risk. cbv zeta.
  destruct (raw_name file) as [filename|]; [|discriminate].
  intros E. injection E as E. subst r. cbn [fst snd].
  destruct (_ >? 100)%Z; [|destruct (_ >? 50)%Z; [|destruct (_ >? 10)%Z]];
    destruct (_isTestFile filename); lia.
Qed.

Lemma file_risks_bounds (files : list ChangedFile) :
  forall per_file,
    file_risks files = Some per_file ->
    length per_file = length files
    /\ Forall (fun r => (0 <= snd (fst r) <= 40)%Z) per_file.
Proof.
  induction files as [|f files IH]; intros per_file E; simpl in E.
  - injection E as E. subst. split; [reflexivity|constructor].
  - destruct (file_risk f) as [r|] eqn:Er; [|discriminate E].
    destruct (file_risks files) as [rs|]; [|discriminate E].
    injection E as E. subst per_file.
    destruct (IH rs eq_refl) as [Hlen Hall]. split.
    + simpl. rewrite Hlen. reflexivity.
    + constructor; [exact (file_risk_bounds f r Er)|exact Hall].
Qed.

Lemma total_risk_bounds (per_file : list (string * Z * Z)) (acc : Z) :
  Forall (fun r => (0 <= snd (fst r) <= 40)%Z) per_file ->
  let total := fold_left (fun acc r => (acc + snd (fst r))%Z) per_file acc in
  (acc <= total <= acc + 40 * Z.of_nat (length per_file))%Z.
Proof.
  revert acc. induction per_file as [|r rs IH]; intros acc Hall; cbv zeta.
  - simpl. lia.
  - inversion Hall as [|? ? Hr Hrs]; subst.
    cbn [fold_left length]. specialize (IH (acc + snd (fst r))%Z Hrs).
    cbv zeta in IH. lia.
Qed.

(** The risk half of C2 holds: for a list that is not empty the total
    risk is between 0 and 40. *)
Lemma analyzeRisk_totalRisk_bounds (changedFiles : list ChangedFile)
    (riskAnalysis : RiskAnalysis) :
  changedFiles <> [] ->
  _analyzeRisk changedFiles = Some riskAnalysis ->
  (0 <= totalRisk riskAnalysis <= 40)%Z.
Proof.
  intros Hne E. unfold _analyzeRisk in E.
  destruct (file_risks changedFiles) as [per_file|] eqn:Ep; [|discriminate E].
  injection E as E. subst riskAnalysis. cbn [totalRisk].
  destruct (file_risks_bounds changedFiles per_file Ep) as [Hlen Hall].
  pose proof (total_risk_bounds per_file 0 Hall) as Ht. cbv zeta in Ht.
  set (total := fold_left _ _ 0%Z) in *.
  rewrite Hlen in Ht.
  assert (Hn : (0 < Z.of_nat (length changedFiles))%Z).
  { destruct changedFiles; [congruence|simpl; lia]. }
  destruct (ratio_bounds total (Z.of_nat (length changedFiles)) 40)
    as [Hlo Hhi]; [lia|exact Hn|lia|].
  pose proof (Math_round_nonneg _ Hlo).
  pose proof (Math_round_le _ 40 Hhi).
  lia.
Qed.

Import TestAnalyzer.

(** [TestAnalyzer.analyzeCoverage] keeps both numbers between 0 and
    100, for every list of changes and of relevant tests. *)
Lemma analyzeCoverage_bounds {T} (codeChanges : list CodeChange)
    (relevant : list T) :
  let c := analyzeCoverage codeChanges relevant in
  (0 <= estimated c <= 100)%Z /\ (0 <= riskScore c <= 100)%Z.
Proof.
  cbv zeta. unfold analyzeCoverage. cbv zeta. cbn [estimated riskScore].
  split; [|lia].
  set (n := Z.of_nat (length codeChanges)).
  set (t := Z.of_nat (length relevant)).
  destruct (n >? 0)%Z eqn:Hn; [|lia].
  apply Z.gtb_lt in Hn.
  assert (Hq : (0 <= inject_Z (Z.min t n) / inject_Z n * 100)%Q /\
               (inject_Z (Z.min t n) / inject_Z n * 100 <= inject_Z 100)%Q).
  { assert (Ht : (0 <= t)%Z) by (subst t; lia).
    destruct (ratio_bounds (Z.min t n) n 1) as [Hlo Hhi]; [lia|lia|lia|].
    split.
    - apply Qmult_le_0_compat; [exact Hlo|discriminate].
    - change (inject_Z 100) with (1 * 100)%Q.
      apply Qmult_le_compat_r; [exact Hhi|discriminate]. }
  destruct Hq as [Hlo Hhi].
  pose proof (Math_round_nonneg _ Hlo).
  pose proof (Math_round_le _ 100 Hhi).
  destruct (t >? n)%Z eqn:Htn; [|lia].
  apply Z.gtb_lt in Htn. lia.
Qed.

(** [analyzeTests] with no code change and an empty repository listing:
    the default change is analysed, the estimate is 0 and the risk
    score 100. *)
Lemma analyzeTests_empty_changes :
  let result := analyzeTests [] [] in
  identifiedTests result = []
  /\ map sg_fileName (suggestedTests result) = ["src/main.test.js"]
  /\ estimated (coverage result) = 0%Z
  /\ riskScore (coverage result) = 100%Z.
Proof. cbv zeta. repeat split; vm_compute; reflexivity. Qed.

End Bounds.

(* ================================================================== *)
(** ** More on identifyTests: failure, assembly, classification        *)
(* ================================================================== *)

Section ServiceResult.

Import TestAnalysisService Scenarios.

Lemma file_risk_none_iff (file : ChangedFile) :
  file_risk file = None <-> raw_name file = None.
Proof.
  unfold file_risk. cbv zeta.
  destruct (raw_name file); split; intros H; congruence.
Qed.

Lemma file_risks_none_iff (changedFiles : list ChangedFile) :
  file_risks changedFiles = None <->
  exists f, In f changedFiles /\ raw_name f = None.
Proof.
  induction changedFiles as [|f files IH]; simpl.
  - split; [discriminate|intros (f & [] & _)].
  - destruct (file_risk f) as [r|] eqn:Er.
    + destruct (file_risks files) as [rs|]; simpl.
      * split; [discriminate|].
        intros (g & [Hg|Hg] & Hn).
        -- subst g. apply file_risk_none_iff in Hn. congruence.
        -- assert (E : Some rs = None)
             by (apply IH; exists g; split; assumption).
           discriminate E.
      * split; [|reflexivity]. intros _.
        destruct (proj1 IH eq_refl) as (g & Hg & Hn).
        exists g. split; [right; exact Hg|exact Hn].
    + split; [|reflexivity]. intros _.
      exists f. split; [left; reflexivity|].
      apply file_risk_none_iff. exact Er.
Qed.

(** X1. [identifyTests] fails exactly when some changed file has
    neither a [filename] nor a [path]: the classification passes over
    such a file, and [_analyzeRisk] then calls [_isTestFile] on
    undefined. In every other case, the empty list included, a result
    is returned. *)
Theorem identifyTests_fails_iff_nameless (changedFiles : list ChangedFile) :
  identifyTests changedFiles = None <->
  exists f, In f changedFiles /\ raw_name f = None.
Proof.
  destruct changedFiles as [|f rest].
  - simpl. split; [discriminate|intros (g & [] & _)].
  - rewrite identifyTests_nonempty, <- file_risks_none_iff.
    unfold _analyzeRisk.
    destruct (file_risks (f :: rest)); simpl; split; congruence.
Qed.

(** X2. In every result for a list that is not empty, the identified
    tests are the existing tests followed by the related and suggested
    ones, nothing removed, and the statistics count exactly these
    lists. *)
Theorem identifiedTests_is_concatenation
    (changedFiles : list ChangedFile) (result : AnalysisResult) :
  changedFiles <> [] ->
  identifyTests changedFiles = Some result ->
  exists tests related sources,
    existingTests result = Some tests
    /\ relatedTests result = Some related
    /\ sourceFiles result = Some sources
    /\ identifiedTests result = (tests ++ related)%list
    /\ statistics result =
       Some (mkStatistics (length changedFiles) (length sources)
               (length tests) (length related))
    /\ length (identifiedTests result)
       = (length tests + length related)%nat.
Proof.
  intros Hne E.
  destruct (identifyTests_result changedFiles result Hne E) as (r & Hr).
  subst result. unfold result_of. cbv zeta.
  do 3 eexists. repeat split. cbn [identifiedTests]. apply length_app.
Qed.

Lemma identifiedTests_is_concatenation_witness :
  exists result,
    identifyTests [a_js; a_test_js; a_spec_js] = Some result
    /\ length (identifiedTests result) = 5%nat.
Proof.
  destruct (identifyTests_defined [a_js; a_test_js; a_spec_js])
    as (r & E); [discriminate| |].
  { intros f [Hf|[Hf|[Hf|[]]]]; subst f; discriminate. }
  exists (result_of [a_js; a_test_js; a_spec_js] r). split; [exact E|].
  destruct (identifiedTests_is_concatenation
              [a_js; a_test_js; a_spec_js] _ ltac:(discriminate) E)
    as (tests & related & sources & Ht & Hr & _ & _ & _ & Hlen).
  rewrite Hlen.
  injection Ht as Ht. injection Hr as Hr. subst tests related.
  vm_compute. reflexivity.
Defined.

(** X3. Whatever the changed files, a result of [identifyTests] holds no
    recommendation: the suggested entry that every source file receives
    makes its path one of the tested paths. *)
Theorem recommendations_always_empty
    (changedFiles : list ChangedFile) (result : AnalysisResult) :
  identifyTests changedFiles = Some result ->
  recommendations result = [].
Proof.
  intros E. destruct changedFiles as [|f rest].
  - simpl in E. injection E as E. subst result. reflexivity.
  - apply identifyTests_result in E; [|discriminate].
    destruct E as (r & E). subst result.
    unfold result_of. cbv zeta. cbn [recommendations].
    apply generateRecommendations_nil.
Qed.

Lemma recommendations_always_empty_witness :
  exists result,
    identifyTests [a_js; latest_js] = Some result
    /\ recommendations result = [].
Proof.
  destruct (identifyTests_defined [a_js; latest_js])
    as (r & E); [discriminate| |].
  { intros f [Hf|[Hf|[]]]; subst f; discriminate. }
  exists (result_of [a_js; latest_js] r). split; [exact E|].
  exact (recommendations_always_empty [a_js; latest_js] _ E).
Defined.

Lemma identifyExistingTests_spec (changedFiles : list ChangedFile)
    (e : TestEntry) :
  In e (_identifyExistingTests changedFiles) ->
  exists f, In f changedFiles /\ _isTestFile (name_of f) = true /\
            e = mkTestEntry (name_of f) existing None
                  (_detectLanguage (name_of f)) 1
                  "Direct test file modification".
Proof.
  unfold _identifyExistingTests. intros Hin.
  apply in_flat_map in Hin. destruct Hin as (f & Hf & Hin).
  destruct (_isTestFile (name_of f)) eqn:Ht; [|destruct Hin].
  destruct Hin as [He|[]]. exists f. repeat split; auto.
Qed.

(** X4. The two classifications never overlap: no path is reported both
    as an existing test and as a source file of the same change list. *)
Theorem existing_tests_and_sources_disjoint
    (changedFiles : list ChangedFile) (e : TestEntry) (s : SourceFile) :
  In e (_identifyExistingTests changedFiles) ->
  In s (_identifySourceFiles changedFiles) ->
  test_path e <> src_path s.
Proof.
  intros He Hs Heq.
  apply identifyExistingTests_spec in He.
  destruct He as (f & _ & Ht & He). subst e. simpl in Heq.
  apply identifySourceFiles_spec in Hs. destruct Hs as [Hs _].
  rewrite <- Heq, Ht in Hs. discriminate.
Qed.

Lemma existing_tests_and_sources_disjoint_witness :
  "src/a.test.js" <> "src/a.js".
Proof.
  exact (existing_tests_and_sources_disjoint [a_js; a_test_js]
           (mkTestEntry "src/a.test.js" existing None "javascript" 1
              "Direct test file modification")
           (mkSourceFile "src/a.js" "javascript" 80 0 80)
           (or_introl eq_refl) (or_introl eq_refl)).
Defined.

Lemma isTestFile_false (filename : string) :
  _isTestFile filename = false ->
  matches_language_pattern filename = false
  /\ JS.includes (JS.toLowerCase filename) "test" = false
  /\ JS.includes (JS.toLowerCase filename) "spec" = false.
Proof.
  unfold _isTestFile. cbv zeta.
  destruct (matches_language_pattern filename); [discriminate|].
  intros H. apply orb_false_iff in H. destruct H as [H _].
  apply orb_false_iff in H. destruct H as [H1 H2]. auto.
Qed.

(** X5. What a source file is: its path is the name of a changed file,
    ends with one of the code extensions, contains no entry of the
    ignore list, and neither "test" nor "spec" in any letter case. *)
Theorem source_file_characterisation
    (changedFiles : list ChangedFile) (s : SourceFile) :
  In s (_identifySourceFiles changedFiles) ->
  (exists f, In f changedFiles /\ name_of f = src_path s)
  /\ (exists ext, In ext codeExtensions /\
                  JS.endsWith (src_path s) ext = true)
  /\ (forall ignored, In ignored ignoredPaths ->
                      JS.includes (src_path s) ignored = false)
  /\ JS.includes (JS.toLowerCase (src_path s)) "test" = false
  /\ JS.includes (JS.toLowerCase (src_path s)) "spec" = false.
Proof.
  intros Hin.
  pose proof (identifySourceFiles_spec changedFiles s Hin) as [Ht Hc].
  split.
  { unfold _identifySourceFiles in Hin. apply in_map_iff in Hin.
    destruct Hin as (f & Hs & Hf). apply filter_In in Hf.
    exists f. split; [tauto|]. subst s. reflexivity. }
  unfold _isCodeFile, JS.some in Hc.
  destruct (existsb (fun ignored => JS.includes (src_path s) ignored)
              ignoredPaths) eqn:Ei; [discriminate|].
  split.
  { apply existsb_exists in Hc. exact Hc. }
  split.
  { intros ignored Hi.
    destruct (JS.includes (src_path s) ignored) eqn:E; [|reflexivity].
    assert (Hex : existsb (fun i => JS.includes (src_path s) i) ignoredPaths
                  = true).
    { apply existsb_exists. exists ignored. split; assumption. }
    congruence. }
  apply isTestFile_false in Ht. tauto.
Qed.

Lemma source_file_characterisation_witness :
  JS.endsWith "src/a.js" ".js" = true
  /\ JS.includes "src/a.js" "build" = false.
Proof.
  destruct (source_file_characterisation [a_js; a_test_js]
              (mkSourceFile "src/a.js" "javascript" 80 0 80)
              (or_introl eq_refl))
    as (_ & _ & Hign & _).
  split; [vm_compute; reflexivity|].
  apply Hign. vm_compute. tauto.
Defined.

End ServiceResult.

(* ================================================================== *)
(** ** Related tests, coverage and risk of the service                 *)
(* ================================================================== *)

Section ServiceNumbers.

Import TestAnalysisService Scenarios.

Lemma generateTestPaths_length (sourcePath : string) :
  length (_generateTestPaths sourcePath) = 6%nat \/
  length (_generateTestPaths sourcePath) = 8%nat.
Proof.
  unfold _generateTestPaths. cbv zeta.
  destruct (JS.indexOf _ _); [right|left]; reflexivity.
Qed.

Lemma indexOf_Some_In (l : list string) (x : string) :
  (exists i, JS.indexOf l x = Some i) <-> In x l.
Proof.
  induction l as [|y l IH]; simpl.
  - split; [intros (i & H); discriminate H|intros []].
  - destruct (String.eqb y x) eqn:E.
    + apply String.eqb_eq in E. split; [auto|]. intros _. eexists. reflexivity.
    + apply String.eqb_neq in E. rewrite <- IH. split.
      * intros (i & H). destruct (JS.indexOf l x); [|discriminate H].
        right. eexists. reflexivity.
      * intros [H|(i & H)]; [contradiction|]. rewrite H. eexists. reflexivity.
Qed.

(** X6. The generator returns six candidates, or eight, and eight
    exactly when a segment of the path equals [src]. *)
Theorem generateTestPaths_count (sourcePath : string) :
  (length (_generateTestPaths sourcePath) = 8%nat <->
   In "src" (JS.split "/" sourcePath))
  /\ (length (_generateTestPaths sourcePath) = 6%nat <->
      ~ In "src" (JS.split "/" sourcePath)).
Proof.
  pose proof (indexOf_Some_In (JS.split "/" sourcePath) "src") as Hin.
  unfold _generateTestPaths. cbv zeta.
  destruct (JS.indexOf (JS.split "/" sourcePath) "src") as [i|]; simpl.
  - assert (H : In "src" (JS.split "/" sourcePath))
      by (apply Hin; exists i; reflexivity).
    split; split; intros H'; try reflexivity; try discriminate;
      try assumption.
    contradiction.
  - assert (H : ~ In "src" (JS.split "/" sourcePath)).
    { intros H. apply Hin in H. destruct H as (i & H). discriminate H. }
    split; split; intros H'; try reflexivity; try discriminate;
      try assumption.
    contradiction.
Qed.

Lemma filter_map_none {A B} (p : B -> bool) (f : A -> B) (l : list A) :
  (forall x, p (f x) = false) -> filter p (map f l) = [].
Proof.
  intros H. induction l as [|x l IH]; simpl; [reflexivity|].
  rewrite H. exact IH.
Qed.

Lemma filter_map_all {A B} (p : B -> bool) (f : A -> B) (l : list A) :
  (forall x, p (f x) = true) -> filter p (map f l) = map f l.
Proof.
  intros H. induction l as [|x l IH]; simpl; [reflexivity|].
  rewrite H, IH. reflexivity.
Qed.

Lemma findRelatedTests_In (sources : list SourceFile)
    (allFiles : list ChangedFile) (t : TestEntry) :
  In t (_findRelatedTests sources allFiles) ->
  exists s, In s sources /\
    ((exists testPath,
         In testPath (_generateTestPaths (src_path s))
         /\ (exists f, In f allFiles /\ name_of f = testPath)
         /\ t = mkTestEntry testPath related (Some (src_path s))
                  (src_language s) (9 # 10) "Test file for modified source")
     \/ t = mkTestEntry (hd "" (_generateTestPaths (src_path s))) suggested
              (Some (src_path s)) (src_language s) (6 # 10)
              "Suggested test file based on naming convention").
Proof.
  unfold _findRelatedTests. intros Hin.
  apply in_flat_map in Hin. destruct Hin as (s & Hs & Hin).
  exists s. split; [exact Hs|].
  apply in_app_or in Hin. destruct Hin as [Hin|Hin].
  - left. apply in_map_iff in Hin. destruct Hin as (testPath & Ht & Hf).
    apply filter_In in Hf. destruct Hf as [Hp Hsome].
    exists testPath. split; [exact Hp|]. split; [|auto].
    unfold JS.some in Hsome. apply existsb_exists in Hsome.
    destruct Hsome as (f & Hf & E). apply String.eqb_eq in E.
    exists f. split; assumption.
  - right. destruct (_generateTestPaths (src_path s)) as [|first rest];
      [destruct Hin|].
    destruct Hin as [Ht|[]]. subst t. reflexivity.
Qed.

Lemma findRelatedTests_suggested_count (sources : list SourceFile)
    (allFiles : list ChangedFile) :
  length (filter is_suggested (_findRelatedTests sources allFiles))
  = length sources.
Proof.
  unfold _findRelatedTests.
  induction sources as [|s sources IH]; [reflexivity|].
  cbn [flat_map]. rewrite !filter_app, !length_app, IH.
  rewrite filter_map_none by reflexivity.
  destruct (generateTestPaths_cons (src_path s)) as (first & rest & E).
  rewrite E. reflexivity.
Qed.

Lemma findRelatedTests_suggested (sources : list SourceFile)
    (allFiles : list ChangedFile) :
  filter is_suggested (_findRelatedTests sources allFiles)
  = map suggestion_for sources.
Proof.
  unfold _findRelatedTests.
  induction sources as [|s sources IH]; [reflexivity|].
  cbn [flat_map map]. rewrite !filter_app, IH.
  rewrite filter_map_none by reflexivity.
  destruct (generateTestPaths_cons (src_path s)) as (first & rest & E).
  unfold suggestion_for. rewrite E. reflexivity.
Qed.

Lemma findRelatedTests_related (sources : list SourceFile)
    (allFiles : list ChangedFile) (s : SourceFile) (testPath : string)
    (f : ChangedFile) :
  In s sources ->
  In testPath (_generateTestPaths (src_path s)) ->
  In f allFiles -> name_of f = testPath ->
  In (mkTestEntry testPath related (Some (src_path s)) (src_language s)
        (9 # 10) "Test file for modified source")
     (_findRelatedTests sources allFiles).
Proof.
  intros Hs Hp Hf En. unfold _findRelatedTests.
  apply in_flat_map. exists s. split; [exact Hs|].
  apply in_or_app. left. apply in_map_iff. exists testPath.
  split; [reflexivity|]. apply filter_In. split; [exact Hp|].
  unfold JS.some. apply existsb_exists. exists f. split; [exact Hf|].
  apply String.eqb_eq. exact En.
Qed.

(** X7. [_findRelatedTests] gives every source file exactly one
    suggested entry, for its first candidate path and with confidence
    0.6, found test or not: the suggested entries of the result are, in
    the order of the source files, the entry [suggestion_for] of each of
    them. A related entry has confidence 0.9; its path is the name of a
    changed file and one of the candidate paths of its source file; and
    every candidate path of a source file that is the name of a changed
    file has its related entry. No entry is of type [existing]. *)
Theorem findRelatedTests_structure
    (sources : list SourceFile) (allFiles : list ChangedFile) :
  let tests := _findRelatedTests sources allFiles in
  filter is_suggested tests = map suggestion_for sources
  /\ length (filter is_suggested tests) = length sources
  /\ (forall s, In s sources ->
        test_path (suggestion_for s) = hd "" (_generateTestPaths (src_path s))
        /\ test_type (suggestion_for s) = suggested
        /\ test_sourceFile (suggestion_for s) = Some (src_path s)
        /\ test_confidence (suggestion_for s) = (6 # 10)%Q
        /\ In (suggestion_for s) tests)
  /\ (forall s testPath f,
        In s sources ->
        In testPath (_generateTestPaths (src_path s)) ->
        In f allFiles -> name_of f = testPath ->
        In (mkTestEntry testPath related (Some (src_path s))
              (src_language s) (9 # 10) "Test file for modified source")
           tests)
  /\ forall t, In t tests ->
       exists s, In s sources /\ test_sourceFile t = Some (src_path s) /\
         match test_type t with
         | related =>
             test_confidence t = (9 # 10)%Q
             /\ In (test_path t) (_generateTestPaths (src_path s))
             /\ exists f, In f allFiles /\ name_of f = test_path t
         | suggested =>
             t = suggestion_for s
             /\ test_confidence t = (6 # 10)%Q
             /\ test_path t = hd "" (_generateTestPaths (src_path s))
         | existing => False
         end.
Proof.
  cbv zeta.
  split; [apply findRelatedTests_suggested|].
  split; [apply findRelatedTests_suggested_count|].
  split; [|split].
  - intros s Hs. repeat split.
    assert (Hin : In (suggestion_for s)
                    (filter is_suggested (_findRelatedTests sources allFiles))).
    { rewrite findRelatedTests_suggested. apply in_map. exact Hs. }
    apply filter_In in Hin. exact (proj1 Hin).
  - intros s testPath f. apply findRelatedTests_related.
  - intros t Hin. apply findRelatedTests_In in Hin.
    destruct Hin as (s & Hs & [(testPath & Hp & Hf & Ht)|Ht]);
      exists s; subst t; simpl; auto.
Qed.

Lemma related_count_le (sources : list SourceFile)
    (allFiles : list ChangedFile) :
  (length (filter is_related (_findRelatedTests sources allFiles))
   <= 8 * length sources)%nat.
Proof.
  unfold _findRelatedTests.
  induction sources as [|s sources IH]; [simpl; lia|].
  cbn [flat_map]. rewrite !filter_app, !length_app.
  rewrite filter_map_all by reflexivity. rewrite length_map.
  assert (H1 : (length (filter
                   (fun testPath =>
                      JS.some (fun f => String.eqb (name_of f) testPath)
                        allFiles)
                   (_generateTestPaths (src_path s))) <= 8)%nat).
  { etransitivity; [apply filter_length_le|].
    destruct (generateTestPaths_length (src_path s)) as [E|E]; rewrite E; lia. }
  match goal with
  | |- (_ + length (filter is_related ?sugg) + _ <= _)%nat =>
      assert (H2 : length (filter is_related sugg) = 0%nat)
        by (destruct (_generateTestPaths (src_path s)); reflexivity);
      rewrite H2
  end.
  cbn [length]. lia.
Qed.

(** X8. The coverage that [identifyTests] computes is 100 without source
    files, never negative, and at most 800: every source file can have
    up to eight related tests, and each one counts. *)
Theorem calculateCoverage_range
    (sources : list SourceFile) (allFiles : list ChangedFile) :
  let coverage :=
    _calculateCoverage sources (_findRelatedTests sources allFiles) in
  (0 <= coverage <= 800)%Z /\ (sources = [] -> coverage = 100%Z).
Proof.
  cbv zeta. split; [|intros E; subst; reflexivity].
  destruct sources as [|s sources]; [simpl; lia|].
  unfold _calculateCoverage.
  set (n := Z.of_nat (length (s :: sources))).
  set (t := Z.of_nat (length (filter is_related _))).
  assert (Hn : (0 < n)%Z) by (subst n; simpl; lia).
  assert (Ht : (0 <= t <= 8 * n)%Z).
  { subst t n.
    pose proof (related_count_le (s :: sources) allFiles). lia. }
  destruct (ratio_bounds t n 8) as [Hlo Hhi]; [lia|lia|lia|].
  assert (Hlo' : (0 <= inject_Z t / inject_Z n * 100)%Q)
    by (apply Qmult_le_0_compat; [exact Hlo|discriminate]).
  assert (Hhi' : (inject_Z t / inject_Z n * 100 <= inject_Z 800)%Q).
  { change (inject_Z 800) with (inject_Z 8 * 100)%Q.
    apply Qmult_le_compat_r; [exact Hhi|discriminate]. }
  pose proof (Math_round_nonneg _ Hlo').
  pose proof (Math_round_le _ 800 Hhi').
  lia.
Qed.

(** X9. For a list that is not empty, the total risk that [_analyzeRisk]
    returns is between 0 and 40. *)
Theorem totalRisk_range (changedFiles : list ChangedFile)
    (riskAnalysis : RiskAnalysis) :
  changedFiles <> [] ->
  _analyzeRisk changedFiles = Some riskAnalysis ->
  (0 <= totalRisk riskAnalysis <= 40)%Z.
Proof. apply analyzeRisk_totalRisk_bounds. Qed.

Lemma totalRisk_range_witness :
  exists riskAnalysis,
    _analyzeRisk [a_js; a_test_js] = Some riskAnalysis
    /\ (0 <= totalRisk riskAnalysis <= 40)%Z.
Proof.
  destruct (analyzeRisk_defined [a_js; a_test_js]) as (r & E).
  { intros f [Hf|[Hf|[]]]; subst f; discriminate. }
  exists r. split; [exact E|].
  exact (totalRisk_range [a_js; a_test_js] r ltac:(discriminate) E).
Defined.

End ServiceNumbers.

(* ================================================================== *)
(** ** Sorting                                                         *)
(* ================================================================== *)

Section SortDesc.

Context {A : Type} (key : A -> Z).

Lemma insert_desc_sorted (x : A) (l : list A) :
  StronglySorted (fun a b => (key b <= key a)%Z) l ->
  StronglySorted (fun a b => (key b <= key a)%Z) (JS.insert_desc key x l).
Proof.
  induction l as [|y l IH]; intros Hs; simpl.
  - constructor; constructor.
  - inversion Hs as [|? ? Hl Hy]; subst.
    destruct (key x <? key y)%Z eqn:E.
    + apply Z.ltb_lt in E. constructor; [apply IH; exact Hl|].
      apply Forall_forall. intros z Hz.
      apply (Permutation_in z (insert_desc_perm key x l)) in Hz.
      destruct Hz as [Hz|Hz].
      * subst z. cbv beta. lia.
      * rewrite Forall_forall in Hy. apply Hy. exact Hz.
    + apply Z.ltb_ge in E. constructor; [exact Hs|].
      constructor; [exact E|].
      rewrite Forall_forall in *. intros z Hz.
      specialize (Hy z Hz). cbv beta in *. lia.
Qed.

Lemma sort_desc_sorted (l : list A) :
  StronglySorted (fun a b => (key b <= key a)%Z) (JS.sort_desc key l).
Proof.
  induction l as [|x l IH]; simpl; [constructor|].
  apply insert_desc_sorted. exact IH.
Qed.

Lemma sort_desc_In (l : list A) (x : A) : In x (JS.sort_desc key l) <-> In x l.
Proof.
  split; intros H.
  - exact (Permutation_in x (sort_desc_perm key l) H).
  - exact (Permutation_in x (Permutation_sym (sort_desc_perm key l)) H).
Qed.

Lemma sort_desc_length (l : list A) : length (JS.sort_desc key l) = length l.
Proof. apply Permutation_length, sort_desc_perm. Qed.

Lemma firstn_sorted (n : nat) (l : list A) :
  StronglySorted (fun a b => (key b <= key a)%Z) l ->
  StronglySorted (fun a b => (key b <= key a)%Z) (firstn n l).
Proof.
  revert n. induction l as [|y l IH]; intros [|n] Hs; simpl;
    try constructor.
  - inversion Hs; subst. apply IH. assumption.
  - inversion Hs as [|? ? Hl Hy]; subst.
    rewrite Forall_forall in *. intros z Hz.
    apply Hy. exact (firstn_In_list n l z Hz).
Qed.

End SortDesc.

(* ================================================================== *)
(** ** The list of risks                                               *)
(* ================================================================== *)

Section RiskList.

Import TestAnalysisService Scenarios.

Lemma file_risk_values (file : ChangedFile) (r : string * Z * Z) :
  file_risk file = Some r ->
  raw_name file = Some (fst (fst r))
  /\ (snd (fst r) = 0 \/ 10 <= snd (fst r) <= 40)%Z.
Proof.
  unfold file_risk. cbv zeta.
  destruct (raw_name file) as [filename|]; [|discriminate].
  intros E. injection E as E. subst r. cbn [fst snd].
  split; [reflexivity|].
  destruct (_ >? 100)%Z; [|destruct (_ >? 50)%Z; [|destruct (_ >? 10)%Z]];
    destruct (_isTestFile filename); lia.
Qed.

Lemma file_risks_In (files : list ChangedFile) :
  forall per_file r,
    file_risks files = Some per_file -> In r per_file ->
    exists f, In f files /\ file_risk f = Some r.
Proof.
  induction files as [|f files IH]; intros per_file r E Hin; simpl in E.
  - injection E as E. subst. destruct Hin.
  - destruct (file_risk f) as [r0|] eqn:Er; [|discriminate E].
    destruct (file_risks files) as [rs|]; [|discriminate E].
    injection E as E. subst per_file. destruct Hin as [Hin|Hin].
    + subst r0. exists f. split; [left; reflexivity|exact Er].
    + destruct (IH rs r eq_refl Hin) as (g & Hg & Hr).
      exists g. split; [right; exact Hg|exact Hr].
Qed.

Lemma flat_map_length_le {A B} (f : A -> list B) (l : list A) :
  (forall x, (length (f x) <= 1)%nat) ->
  (length (flat_map f l) <= length l)%nat.
Proof.
  intros H. induction l as [|x l IH]; simpl; [lia|].
  rewrite length_app. specialize (H x). lia.
Qed.

Lemma risk_entries_of (files : list ChangedFile) :
  forall per_file,
    file_risks files = Some per_file ->
    flat_map
      (fun r : string * Z * Z =>
         let '(file, risk, changes) := r in
         if (risk >? 0)%Z
         then [ mkRisk file (Z.min risk 100) changes ]
         else [])
      per_file
    = flat_map risk_entry files.
Proof.
  induction files as [|f files IH]; intros per_file E; simpl in E.
  - injection E as E. subst per_file. reflexivity.
  - destruct (file_risk f) as [[[file risk] changes]|] eqn:Er;
      [|discriminate E].
    destruct (file_risks files) as [rs|]; [|discriminate E].
    injection E as E. subst per_file.
    cbn [flat_map]. rewrite (IH rs eq_refl).
    unfold risk_entry at 2. rewrite Er. reflexivity.
Qed.

Lemma risk_entry_cases (f : ChangedFile) (filename : string)
    (risk changes : Z) :
  file_risk f = Some (filename, risk, changes) ->
  raw_name f = Some filename
  /\ ((risk = 0%Z /\ risk_entry f = [])
      \/ ((10 <= risk <= 40)%Z
          /\ risk_entry f = [ mkRisk filename risk changes ])).
Proof.
  intros E. pose proof (file_risk_values f _ E) as [En Ev].
  cbn [fst snd] in En, Ev. split; [exact En|].
  unfold risk_entry. rewrite E. destruct Ev as [Ev|Ev].
  - left. subst risk. split; reflexivity.
  - right. split; [exact Ev|].
    assert (Eg : (risk >? 0)%Z = true) by (apply Z.gtb_lt; lia).
    rewrite Eg, Z.min_l by lia. reflexivity.
Qed.

(** X10. The risks that [_analyzeRisk] lists are in descending order of
    risk, and they are, up to this order, the entries of the changed
    files, one for every changed file whose risk is positive and none
    for a file whose risk is 0: the entry of a file carries its name,
    its risk, between 10 and 40, and its number of changes. So each
    listed risk is between 10 and 40 and belongs to a changed file, and
    there are at most as many as changed files. *)
Theorem risks_sorted_and_bounded (changedFiles : list ChangedFile)
    (riskAnalysis : RiskAnalysis) :
  _analyzeRisk changedFiles = Some riskAnalysis ->
  StronglySorted (fun a b => (risk_risk b <= risk_risk a)%Z)
    (risks riskAnalysis)
  /\ Permutation (risks riskAnalysis) (flat_map risk_entry changedFiles)
  /\ (forall f, In f changedFiles ->
        exists filename risk changes,
          file_risk f = Some (filename, risk, changes)
          /\ raw_name f = Some filename
          /\ ((risk = 0%Z /\ risk_entry f = [])
              \/ ((10 <= risk <= 40)%Z
                  /\ risk_entry f = [ mkRisk filename risk changes ])))
  /\ (forall r, In r (risks riskAnalysis) ->
        (10 <= risk_risk r <= 40)%Z
        /\ exists f, In f changedFiles /\ raw_name f = Some (risk_file r))
  /\ (length (risks riskAnalysis) <= length changedFiles)%nat.
Proof.
  intros E. unfold _analyzeRisk in E.
  destruct (file_risks changedFiles) as [per_file|] eqn:Ep; [|discriminate E].
  injection E as E. subst riskAnalysis. cbn [risks].
  split; [apply sort_desc_sorted|]. split; [|split; [|split]].
  - rewrite (risk_entries_of changedFiles per_file Ep).
    apply sort_desc_perm.
  - intros f Hf.
    destruct (file_risk f) as [[[filename risk] changes]|] eqn:Er.
    + exists filename, risk, changes. split; [reflexivity|].
      apply risk_entry_cases. exact Er.
    + exfalso. apply file_risk_none_iff in Er.
      assert (En : file_risks changedFiles = None).
      { apply file_risks_none_iff. exists f. split; assumption. }
      congruence.
  - intros r Hr. apply sort_desc_In in Hr.
    apply in_flat_map in Hr. destruct Hr as ([[file risk] changes] & Hp & Hr).
    destruct (file_risks_In changedFiles per_file _ Ep Hp) as (f & Hf & Ef).
    apply file_risk_values in Ef. cbn [fst snd] in Ef. destruct Ef as [En Ev].
    destruct (risk >? 0)%Z eqn:Eg; [|destruct Hr].
    apply Z.gtb_lt in Eg. destruct Hr as [Hr|[]]. subst r. cbn.
    split; [lia|]. exists f. split; assumption.
  - rewrite sort_desc_length.
    destruct (file_risks_bounds changedFiles per_file Ep) as [Hlen _].
    rewrite <- Hlen. apply flat_map_length_le.
    intros [[file risk] changes]. destruct (risk >? 0)%Z; simpl; lia.
Qed.

Lemma risks_sorted_and_bounded_witness :
  exists riskAnalysis,
    _analyzeRisk [a_test_js; a_js] = Some riskAnalysis
    /\ StronglySorted (fun a b => (risk_risk b <= risk_risk a)%Z)
         (risks riskAnalysis)
    /\ Permutation (risks riskAnalysis) [ mkRisk "src/a.js" 30 80 ]
    /\ (length (risks riskAnalysis) <= 2)%nat.
Proof.
  destruct (analyzeRisk_defined [a_test_js; a_js]) as (r & E).
  { intros f [Hf|[Hf|[]]]; subst f; discriminate. }
  exists r. split; [exact E|].
  destruct (risks_sorted_and_bounded [a_test_js; a_js] r E)
    as (Hsorted & Hperm & _ & _ & Hlen).
  split; [exact Hsorted|]. split; [exact Hperm|exact Hlen].
Defined.

End RiskList.

(* ================================================================== *)
(** ** Edge cases of the path generator                                *)
(* ================================================================== *)

Section GeneratorEdges.

Import TestAnalysisService Scenarios.

Lemma startsWith_head (c : ascii) (rest : string) :
  JS.startsWith (String c rest) (String c EmptyString) = true.
Proof. simpl. rewrite Ascii.eqb_refl. destruct rest; reflexivity. Qed.

Lemma generateTestPaths_root (sourcePath : string) :
  JS.has_char "/" sourcePath = false ->
  sourcePath <> "src" ->
  Forall (fun candidate => JS.startsWith candidate "/" = true)
    (_generateTestPaths sourcePath).
Proof.
  intros Hs Hne. unfold _generateTestPaths. cbv zeta.
  rewrite (split_no_sep "/" sourcePath Hs).
  assert (E : JS.indexOf [sourcePath] "src" = None).
  { apply indexOf_absent. intros [H|[]]. contradiction. }
  rewrite E. unfold JS.slice_init. cbn [last removelast JS.join app].
  cbn [String.append].
  repeat (apply Forall_cons; [apply startsWith_head|]). apply Forall_nil.
Qed.

(** X11. A source file at the root of the repository never gets a
    related test: its candidate paths all begin with [/], the directory
    being empty, and the name of no changed file does. Such a file has
    its suggested entry only. *)
Theorem root_level_source_has_no_related_test
    (sources : list SourceFile) (allFiles : list ChangedFile)
    (t : TestEntry) (sourcePath : string) :
  In t (_findRelatedTests sources allFiles) ->
  test_sourceFile t = Some sourcePath ->
  JS.has_char "/" sourcePath = false ->
  sourcePath <> "src" ->
  (forall f, In f allFiles -> JS.startsWith (name_of f) "/" = false) ->
  test_type t = suggested
  /\ JS.startsWith (test_path t) "/" = true.
Proof.
  intros Hin Hsrc Hroot Hne Hnames.
  apply findRelatedTests_In in Hin.
  destruct Hin as (s & Hs & [(testPath & Hp & (f & Hf & Hn) & Ht)|Ht]);
    subst t; simpl in Hsrc; injection Hsrc as Hsrc; rewrite Hsrc in *.
  - exfalso.
    pose proof (generateTestPaths_root sourcePath Hroot Hne) as Hall.
    rewrite Forall_forall in Hall. specialize (Hall testPath Hp).
    rewrite <- Hn, (Hnames f Hf) in Hall. discriminate Hall.
  - cbn [test_type test_path]. split; [reflexivity|].
    pose proof (generateTestPaths_root sourcePath Hroot Hne) as Hall.
    destruct (generateTestPaths_cons sourcePath) as (first & rest & E).
    rewrite E in *. cbn [hd]. inversion Hall; subst. assumption.
Qed.

Lemma root_level_source_has_no_related_test_witness :
  JS.startsWith "/index.test.js" "/" = true.
Proof.
  refine (proj2 (root_level_source_has_no_related_test
            [mkSourceFile "index.js" "javascript" 1 0 1]
            [github_file "index.js" 1 0; github_file "index.test.js" 1 0]
            (mkTestEntry "/index.test.js" suggested (Some "index.js")
               "javascript" (6 # 10)
               "Suggested test file based on naming convention")
            "index.js" _ eq_refl eq_refl _ _)).
  - vm_compute. left. reflexivity.
  - discriminate.
  - intros f [Hf|[Hf|[]]]; subst f; reflexivity.
Defined.

(** X12. A file name without a dot has an empty name and is its own
    extension for the generator: the first candidate of [dir/file] is
    [dir/.test.file]. *)
Theorem generateTestPaths_without_extension
    (segs : list string) (filename : string) :
  Forall (fun seg => JS.has_char "/" seg = false) segs ->
  JS.has_char "/" filename = false ->
  JS.has_char "." filename = false ->
  let dir := JS.join "/" segs in
  firstn 2 (_generateTestPaths (JS.join "/" (segs ++ [filename])))
  = [ dir ++ "/.test." ++ filename; dir ++ "/.spec." ++ filename ].
Proof.
  intros Hsegs Hslash Hdot dir.
  assert (Hparts : JS.split "/" (JS.join "/" (segs ++ [filename]))
                   = (segs ++ [filename])%list).
  { apply split_join.
    - destruct segs; discriminate.
    - apply Forall_app. split; [exact Hsegs|].
      constructor; [exact Hslash|constructor]. }
  unfold _generateTestPaths. rewrite Hparts. unfold JS.slice_init.
  rewrite last_snoc, removelast_snoc.
  rewrite (split_no_sep "." filename Hdot). reflexivity.
Qed.

Lemma generateTestPaths_without_extension_witness :
  firstn 2 (_generateTestPaths "bin/tool")
  = [ "bin/.test.tool"; "bin/.spec.tool" ].
Proof.
  exact (generateTestPaths_without_extension ["bin"] "tool"
           ltac:(repeat constructor) eq_refl eq_refl).
Defined.

(** C9. For the source path "index.js", at the root of the repository,
    the directory is the empty string and every candidate begins with a
    slash: the first candidate is "/index.test.js", and neither
    "index.test.js" nor "index.spec.js", the co-located names, is among
    the candidates. So when "index.js" and "index.test.js" are changed
    together, [identifyTests] relates no test to "index.js", suggests
    "/index.test.js" and reports a coverage of 0. With a directory the
    candidates are the co-located ones: "src/index.js" gives
    "src/index.test.js" first, and the mirrored paths last. *)
Theorem root_level_candidates_are_not_colocated :
  _generateTestPaths "index.js" =
  [ "/index.test.js"; "/index.spec.js"; "/__tests__/index.js";
    "/__tests__/index.test.js"; "/tests/index.js"; "/test/index.js" ]
  /\ ~ In "index.test.js" (_generateTestPaths "index.js")
  /\ ~ In "index.spec.js" (_generateTestPaths "index.js")
  /\ option_map relatedTests (identifyTests [index_js; index_test_js]) =
     Some (Some [ mkTestEntry "/index.test.js" suggested (Some "index.js")
                    "javascript" (6 # 10)
                    "Suggested test file based on naming convention" ])
  /\ option_map coverage (identifyTests [index_js; index_test_js]) = Some 0%Z
  /\ _generateTestPaths "src/index.js" =
     [ "src/index.test.js"; "src/index.spec.js"; "src/__tests__/index.js";
       "src/__tests__/index.test.js"; "src/tests/index.js";
       "src/test/index.js"; "test/index.js"; "tests/index.js" ].
Proof.
  assert (E : _generateTestPaths "index.js" =
              [ "/index.test.js"; "/index.spec.js"; "/__tests__/index.js";
                "/__tests__/index.test.js"; "/tests/index.js";
                "/test/index.js" ])
    by (vm_compute; reflexivity).
  split; [exact E|].
  split; [rewrite E; simpl; intuition discriminate|].
  split; [rewrite E; simpl; intuition discriminate|].
  split; [vm_compute; reflexivity|].
  split; vm_compute; reflexivity.
Qed.

End GeneratorEdges.

(* ================================================================== *)
(** ** What the compiled patterns can match                            *)
(* ================================================================== *)

Section CompiledPatterns.

Import Regex RegexShape.

Lemma match_here_star (to_end : bool) (a : atom) (r : list item) (t : string) :
  match_here to_end (Star a :: r) t =
  match_here to_end r t ||
  match t with
  | EmptyString => false
  | String c t' => atom_ok a c && match_here to_end (Star a :: r) t'
  end.
Proof. destruct t; reflexivity. Qed.

Lemma match_here_char (to_end : bool) (c : ascii) (r : list item) (s : string) :
  match_here to_end (One (AChar c) :: r) s = true ->
  exists s', s = String c s' /\ match_here to_end r s' = true.
Proof.
  destruct s as [|d s']; simpl; [discriminate|].
  intros H. apply andb_true_iff in H. destruct H as [Hc Hr].
  apply Ascii.eqb_eq in Hc. subst d. exists s'. split; [reflexivity|exact Hr].
Qed.

Lemma star_not_slash_then_slash (to_end : bool) (r : list item) (t : string) :
  match_here to_end (Star ANotSlash :: One (AChar "/") :: r) t = true ->
  exists mid tail,
    t = mid ++ String "/" tail /\ JS.has_char "/" mid = false.
Proof.
  induction t as [|c t IH]; rewrite match_here_star; intros H.
  - simpl in H. discriminate H.
  - apply orb_true_iff in H. destruct H as [H|H].
    + apply match_here_char in H. destruct H as (s' & E & _).
      exists "", s'. split; [exact E|reflexivity].
    + apply andb_true_iff in H. destruct H as [Hc H].
      destruct (IH H) as (mid & tail & E & Hm).
      exists (String c mid), tail. split; [simpl; rewrite E; reflexivity|].
      simpl. simpl in Hc. apply negb_true_iff in Hc. rewrite Hc. exact Hm.
Qed.

Lemma match_anywhere_suffix (to_end : bool) (r : list item) (s : string) :
  match_anywhere to_end r s = true ->
  exists pre suf, s = pre ++ suf /\ match_here to_end r suf = true.
Proof.
  induction s as [|c s IH]; simpl; intros H.
  - rewrite orb_false_r in H. exists "", "". split; [reflexivity|exact H].
  - apply orb_true_iff in H. destruct H as [H|H].
    + exists "", (String c s). split; [reflexivity|exact H].
    + destruct (IH H) as (pre & suf & E & Hm).
      exists (String c pre), suf. split; [simpl; rewrite E; reflexivity|exact Hm].
Qed.

Lemma dotted_directory_match (to_end : bool) (r : list item) (s : string) :
  dotted_directory_first r = true ->
  match_here to_end r s = true ->
  exists mid tail,
    s = String "." (mid ++ String "/" tail) /\ JS.has_char "/" mid = false.
Proof.
  destruct r as [|[[c| |]|] [|[|[| |]] [|[[d| |]|] r]]]; try discriminate.
  intros Hshape H. simpl in Hshape.
  apply andb_true_iff in Hshape. destruct Hshape as [Hc Hd].
  apply Ascii.eqb_eq in Hc, Hd. subst c d.
  apply match_here_char in H. destruct H as (s' & E & H).
  apply star_not_slash_then_slash in H. destruct H as (mid & tail & E' & Hm).
  exists mid, tail. subst. split; [reflexivity|exact Hm].
Qed.

Lemma service_patterns_shape :
  forallb
    (fun entry =>
       forallb
         (fun pattern =>
            compiles_to dotted_directory_first
              (TestAnalysisService._globToRegex pattern))
         (patterns (snd entry)))
    TestAnalysisService.testPatterns = true.
Proof. vm_compute. reflexivity. Qed.

Lemma analyzer_patterns_shape :
  forallb
    (fun entry =>
       forallb
         (fun pattern =>
            compiles_to dot_first (TestAnalyzer.globToRegex pattern))
         (patterns (snd entry)))
    TestAnalyzer.loadTestPatterns = true.
Proof. vm_compute. reflexivity. Qed.

(** X13. A path that one of the compiled patterns of the registry
    accepts contains a dot, then characters other than [/], then a [/]:
    a dot in a directory name. On every other path the pattern loop of
    [_isTestFile] finds nothing, and the answer is the substring
    check. *)
Theorem registry_patterns_need_dotted_directory (filename : string) :
  TestAnalysisService.matches_language_pattern filename = true ->
  exists pre mid tail,
    filename = pre ++ "." ++ mid ++ "/" ++ tail
    /\ JS.has_char "/" mid = false.
Proof.
  unfold TestAnalysisService.matches_language_pattern. intros H.
  apply existsb_exists in H. destruct H as (entry & He & H).
  apply existsb_exists in H. destruct H as (pattern & Hp & H).
  pose proof service_patterns_shape as Hshape.
  rewrite forallb_forall in Hshape. specialize (Hshape entry He).
  rewrite forallb_forall in Hshape. specialize (Hshape pattern Hp).
  unfold TestAnalysisService.pattern_test in H.
  unfold TestAnalysisService._globToRegex in *.
  destruct (RegExp (TestAnalysisService._globToRegex_source pattern))
    as [its|]; [|discriminate H].
  simpl in Hshape, H. unfold test in H. simpl in H.
  apply match_anywhere_suffix in H. destruct H as (pre & suf & E & H).
  destruct (dotted_directory_match false its suf Hshape H)
    as (mid & tail & E' & Hm).
  exists pre, mid, tail. subst. split; [reflexivity|exact Hm].
Qed.

Lemma registry_patterns_need_dotted_directory_witness :
  exists pre mid tail,
    "a.b/c.test.js" = pre ++ "." ++ mid ++ "/" ++ tail
    /\ JS.has_char "/" mid = false.
Proof.
  apply registry_patterns_need_dotted_directory.
  vm_compute. reflexivity.
Defined.

Import TestAnalyzer.

Lemma patternTests_In (files : list string) (t : TestFile) :
  In t (patternTests files) ->
  exists entry pattern,
    In entry loadTestPatterns /\ In pattern (patterns (snd entry))
    /\ In (tf_fileName t) files
    /\ regex_test (globToRegex pattern) (tf_fileName t) = true
    /\ tf_language t = fst entry
    /\ tf_confidence t = calculateTestConfidence (tf_fileName t) pattern.
Proof.
  unfold patternTests. intros Hin.
  apply in_flat_map in Hin. destruct Hin as (language & _ & Hin).
  destruct (find (fun e => String.eqb (fst e) language) loadTestPatterns)
    as [[l languageConfig]|] eqn:Ef; [|destruct Hin].
  apply find_some in Ef. destruct Ef as [He Hl].
  simpl in Hl. apply String.eqb_eq in Hl. subst l.
  apply in_flat_map in Hin. destruct Hin as (pattern & Hp & Hin).
  apply in_map_iff in Hin. destruct Hin as (file & Ht & Hf).
  apply filter_In in Hf. destruct Hf as [Hf Hm].
  exists (language, languageConfig), pattern. subst t. simpl.
  repeat split; auto.
Qed.

(** X14. The pattern pass of [findExistingTests] finds only files
    whose path begins with a dot: the compiled patterns are anchored and
    begin with a literal dot. Every file it reports is one of the
    files of the repository. *)
Theorem pattern_pass_finds_only_dot_paths
    (files : list string) (t : TestFile) :
  In t (patternTests files) ->
  In (tf_fileName t) files
  /\ JS.startsWith (tf_fileName t) "." = true.
Proof.
  intros Hin. apply patternTests_In in Hin.
  destruct Hin as (entry & pattern & He & Hp & Hf & Hm & _).
  split; [exact Hf|].
  pose proof analyzer_patterns_shape as Hshape.
  rewrite forallb_forall in Hshape. specialize (Hshape entry He).
  rewrite forallb_forall in Hshape. specialize (Hshape pattern Hp).
  unfold globToRegex in *.
  destruct (RegExp (globToRegex_source pattern)) as [its|];
    [|discriminate Hm].
  simpl in Hshape, Hm. unfold test in Hm. simpl in Hm.
  destruct its as [|[[c| |]|] its]; try discriminate Hshape.
  simpl in Hshape. apply Ascii.eqb_eq in Hshape. subst c.
  apply match_here_char in Hm. destruct Hm as (s' & E & _).
  rewrite E. apply startsWith_head.
Qed.

Lemma pattern_pass_finds_only_dot_paths_witness :
  JS.startsWith ".github/x.test.js" "." = true.
Proof.
  refine (proj2 (pattern_pass_finds_only_dot_paths
                   ["src/a.test.js"; ".github/x.test.js"]
                   (mkTestFile ".github/x.test.js" "javascript" "jest" "unit"
                      95 "Matches javascript test pattern: **/*.test.js"
                      (MethodCount 5)) _)).
  vm_compute. left. reflexivity.
Defined.

(** X15. For a repository in which no path begins with a dot, the
    pattern pass finds nothing, and [findExistingTests] is the
    alternative detection. *)
Theorem findExistingTests_is_alternative_detection (files : list string) :
  (forall file, In file files -> JS.startsWith file "." = false) ->
  patternTests files = []
  /\ findExistingTests files = findTestsAlternativeMethod files.
Proof.
  intros Hfiles.
  assert (E : patternTests files = []).
  { destruct (patternTests files) as [|t ts] eqn:E; [reflexivity|].
    exfalso.
    assert (Hin : In t (patternTests files)) by (rewrite E; left; reflexivity).
    apply patternTests_In in Hin.
    destruct Hin as (entry & pattern & He & Hp & Hf & Hm & _).
    pose proof analyzer_patterns_shape as Hshape.
    rewrite forallb_forall in Hshape. specialize (Hshape entry He).
    rewrite forallb_forall in Hshape. specialize (Hshape pattern Hp).
    unfold globToRegex in *.
    destruct (RegExp (globToRegex_source pattern)) as [its|];
      [|discriminate Hm].
    simpl in Hshape, Hm. unfold test in Hm. simpl in Hm.
    destruct its as [|[[c| |]|] its]; try discriminate Hshape.
    simpl in Hshape. apply Ascii.eqb_eq in Hshape. subst c.
    apply match_here_char in Hm. destruct Hm as (s' & E' & _).
    specialize (Hfiles _ Hf). rewrite E', startsWith_head in Hfiles.
    discriminate Hfiles. }
  split; [exact E|]. unfold findExistingTests. rewrite E. reflexivity.
Qed.

Lemma findExistingTests_is_alternative_detection_witness :
  findExistingTests ["src/a.test.js"; "test/b.js"; "src/a.js"]
  = findTestsAlternativeMethod ["src/a.test.js"; "test/b.js"; "src/a.js"].
Proof.
  apply findExistingTests_is_alternative_detection.
  intros file [H|[H|[H|[]]]]; subst file; reflexivity.
Defined.

End CompiledPatterns.

(* ================================================================== *)
(** ** Confidence and order of the analyzer's results                  *)
(* ================================================================== *)

Section AnalyzerResults.

Import TestAnalyzer Scenarios.

Lemma calculateTestConfidence_range (fileName pattern : string) :
  (50 <= calculateTestConfidence fileName pattern <= 95)%Z.
Proof.
  unfold calculateTestConfidence. cbv zeta.
  repeat match goal with
         | |- context [if ?b then _ else _] => destruct b
         end; lia.
Qed.

(** X16. Every test file that [findExistingTests] reports is a file of
    the repository listing, with a confidence between 50 and 95. *)
Theorem findExistingTests_entries (files : list string) (t : TestFile) :
  In t (findExistingTests files) ->
  In (tf_fileName t) files /\ (50 <= tf_confidence t <= 95)%Z.
Proof.
  unfold findExistingTests. intros Hin.
  destruct (patternTests files) as [|t0 ts] eqn:E.
  - unfold findTestsAlternativeMethod in Hin.
    apply in_flat_map in Hin. destruct Hin as (file & Hf & Hin).
    destruct (_ && _); [|destruct Hin].
    destruct Hin as [Ht|[]]. subst t. simpl. split; [exact Hf|lia].
  - rewrite <- E in Hin. apply patternTests_In in Hin.
    destruct Hin as (entry & pattern & _ & _ & Hf & _ & _ & Hc).
    split; [exact Hf|]. rewrite Hc. apply calculateTestConfidence_range.
Qed.

Lemma findExistingTests_entries_witness :
  In "src/a.test.js" ["src/a.test.js"; "src/a.js"] /\ (50 <= 60 <= 95)%Z.
Proof.
  exact (findExistingTests_entries ["src/a.test.js"; "src/a.js"]
           (mkTestFile "src/a.test.js" "javascript" "unknown" "unit" 60
              alternative_reason (MethodNames ["test1"; "test2"; "test3"]))
           (or_introl eq_refl)).
Defined.

Lemma fold_bump_ge (funcs : list string) (p : string -> bool) (acc : Z) :
  (acc <= fold_left (fun confidence func => bump (p func) 20 confidence)
            funcs acc)%Z.
Proof.
  revert acc. induction funcs as [|f funcs IH]; intros acc; simpl; [lia|].
  specialize (IH (bump (p f) 20 acc)). unfold bump in *.
  destruct (p f); lia.
Qed.

Lemma calculateTestRelevance_range (change : CodeChange) (test : TestFile) :
  (0 <= calculateTestRelevance change test <= 100)%Z.
Proof.
  unfold calculateTestRelevance. cbv zeta.
  match goal with
  | |- context [fold_left ?f ?l ?a] =>
      pose proof (fold_bump_ge l
                    (fun func =>
                       JS.includes
                         (JS.toLowerCase
                            (last (JS.split "/" (tf_fileName test)) ""))
                         (JS.toLowerCase func)) a) as Hf;
      cbv beta in Hf;
      set (folded := fold_left f l a) in *
  end.
  unfold bump in *.
  repeat match goal with
         | H : context [if ?b then _ else _] |- _ => destruct b
         | |- context [if ?b then _ else _] => destruct b
         end; lia.
Qed.

Lemma getRelevanceReason_kept (confidence : Z) :
  (30 < confidence)%Z ->
  getRelevanceReason confidence <> "Low confidence match".
Proof.
  intros H. unfold getRelevanceReason.
  destruct (confidence >=? 70)%Z; [discriminate|].
  destruct (confidence >=? 50)%Z; [discriminate|].
  destruct (confidence >=? 30)%Z eqn:E; [discriminate|].
  rewrite Z.geb_leb in E. apply Z.leb_gt in E. lia.
Qed.

(** X17. The earlier [identifyRelevantTests] returns at most
    [maxTestsToRun] entries, in descending order of confidence. Every
    entry relates a changed file to an existing test, has a confidence
    above 30 and at most 100, and never the reason "Low confidence
    match". *)
Theorem identifyRelevantTests_first_result
    (maxTestsToRun : nat) (codeChanges : list CodeChange)
    (existingTests : list TestFile) :
  let result :=
    identifyRelevantTests_first maxTestsToRun codeChanges existingTests in
  (length result <= maxTestsToRun)%nat
  /\ StronglySorted (fun a b => (rt_confidence b <= rt_confidence a)%Z) result
  /\ forall r, In r result ->
       (30 < rt_confidence r <= 100)%Z
       /\ rt_reason r <> "Low confidence match"
       /\ (exists test, In test existingTests /\
                        rt_fileName r = tf_fileName test)
       /\ (exists change, In change codeChanges /\
                          rt_relatedFile r = change_fileName change).
Proof.
  cbv zeta. unfold identifyRelevantTests_first.
  split; [apply firstn_le_length|].
  split; [apply firstn_sorted, sort_desc_sorted|].
  intros r Hr. apply firstn_In_list in Hr. apply sort_desc_In in Hr.
  apply removeDuplicateTests_In in Hr. destruct Hr as (pre & post & E & _).
  assert (Hin : In r (relevantTests_first codeChanges existingTests)).
  { rewrite E. apply in_or_app. right. left. reflexivity. }
  apply relevantTests_first_In in Hin.
  destruct Hin as (change & test & Hc & Ht & Hs & Hr). subst r.
  pose proof (calculateTestRelevance_range change test) as Hrange.
  unfold candidate_first. cbn.
  split; [lia|]. split; [apply getRelevanceReason_kept; exact Hs|].
  split; [exists test|exists change]; split; auto.
Qed.

Lemma relevantTests_candidate (codeChanges : list CodeChange)
    (existingTests : list TestFile) (r : RelevantTest) :
  In r (relevantTests codeChanges existingTests) ->
  exists change test,
    In change codeChanges /\ In test existingTests /\
    r = candidate change test /\
    (rt_confidence r = 90 \/ rt_confidence r = 70 \/ rt_confidence r = 60)%Z.
Proof.
  intros Hin. apply relevantTests_In in Hin.
  destruct Hin as (change & test & Hc & Ht & Hs & Hr).
  exists change, test. repeat split; auto. subst r.
  unfold candidate. cbn [rt_confidence].
  pose proof (pair_score_values change test) as Hv. cbv zeta in Hv. lia.
Qed.

(** X18. The [identifyRelevantTests] of the class returns its entries in
    descending order of confidence; every entry is an existing test
    related to a changed file, with confidence 90, 70 or 60; and there
    are at most as many entries as existing tests. *)
Theorem identifyRelevantTests_result
    (codeChanges : list CodeChange) (existingTests : list TestFile) :
  let result := identifyRelevantTests codeChanges existingTests in
  StronglySorted (fun a b => (rt_confidence b <= rt_confidence a)%Z) result
  /\ (length result <= length existingTests)%nat
  /\ forall r, In r result ->
       (rt_confidence r = 90 \/ rt_confidence r = 70 \/ rt_confidence r = 60)%Z
       /\ (exists test, In test existingTests /\
                        rt_fileName r = tf_fileName test)
       /\ (exists change, In change codeChanges /\
                          rt_relatedFile r = changedFile_of change).
Proof.
  cbv zeta. unfold identifyRelevantTests.
  rewrite uniqueTests_removeDuplicateTests.
  assert (Hall : forall r,
             In r (JS.sort_desc rt_confidence
                     (removeDuplicateTests
                        (relevantTests codeChanges existingTests))) ->
             exists change test,
               In change codeChanges /\ In test existingTests /\
               r = candidate change test /\
               (rt_confidence r = 90 \/ rt_confidence r = 70
                \/ rt_confidence r = 60)%Z).
  { intros r Hr. apply sort_desc_In in Hr.
    apply removeDuplicateTests_In in Hr. destruct Hr as (pre & post & E & _).
    apply relevantTests_candidate. rewrite E.
    apply in_or_app. right. left. reflexivity. }
  split; [apply sort_desc_sorted|]. split.
  - rewrite <- (length_map rt_fileName), <- (length_map tf_fileName).
    apply NoDup_incl_length; [apply sorted_unique_NoDup|].
    intros name Hn. apply in_map_iff in Hn. destruct Hn as (r & Hn & Hr).
    destruct (Hall r Hr) as (change & test & _ & Ht & E & _).
    subst r name. apply in_map_iff. exists test. split; [reflexivity|exact Ht].
  - intros r Hr.
    destruct (Hall r Hr) as (change & test & Hc & Ht & E & Hv).
    split; [exact Hv|]. subst r.
    split; [exists test|exists change]; split; auto.
Qed.

End AnalyzerResults.

(* ================================================================== *)
(** ** Substrings                                                      *)
(* ================================================================== *)

Section Substrings.

Lemma string_app_assoc (a b c : string) : (a ++ b) ++ c = a ++ b ++ c.
Proof. induction a as [|x a IH]; simpl; [reflexivity|]. rewrite IH. reflexivity. Qed.

Lemma string_app_nil_r (a : string) : a ++ "" = a.
Proof. induction a as [|x a IH]; simpl; [reflexivity|]. rewrite IH. reflexivity. Qed.

Lemma startsWith_iff (s p : string) :
  JS.startsWith s p = true <-> exists post, s = p ++ post.
Proof.
  revert p. induction s as [|a s IH]; intros [|b p]; simpl.
  - split; [exists ""; reflexivity|reflexivity].
  - split; [discriminate|]. intros (post & E). discriminate E.
  - split; [exists (String a s); reflexivity|reflexivity].
  - rewrite andb_true_iff, IH, Ascii.eqb_eq. split.
    + intros (E & post & Es). subst. exists post. reflexivity.
    + intros (post & E). injection E as E1 E2. split; [exact E1|].
      exists post. exact E2.
Qed.

Lemma includes_iff (s a : string) :
  JS.includes s a = true <-> exists pre post, s = pre ++ a ++ post.
Proof.
  induction s as [|c s IH].
  - cbn [JS.includes]. rewrite orb_false_r, startsWith_iff. split.
    + intros (post & E). exists "", post. exact E.
    + intros (pre & post & E). destruct pre; [exists post; exact E|].
      discriminate E.
  - cbn [JS.includes]. rewrite orb_true_iff, startsWith_iff, IH. split.
    + intros [(post & E)|(pre & post & E)].
      * exists "", post. exact E.
      * exists (String c pre), post. simpl. rewrite E. reflexivity.
    + intros (pre & post & E). destruct pre as [|d pre].
      * left. exists post. exact E.
      * right. simpl in E. injection E as E1 E2. exists pre, post. exact E2.
Qed.

Lemma includes_trans (s a b : string) :
  JS.includes s a = true -> JS.includes a b = true -> JS.includes s b = true.
Proof.
  rewrite !includes_iff. intros (pre & post & E) (pre' & post' & E').
  exists (pre ++ pre'), (post' ++ post). subst.
  rewrite !string_app_assoc. reflexivity.
Qed.

Lemma includes_empty (s : string) : JS.includes s "" = true.
Proof. apply includes_iff. exists "", s. reflexivity. Qed.

Lemma endsWith_iff (s a : string) :
  JS.endsWith s a = true <-> exists pre, s = pre ++ a.
Proof.
  induction s as [|c s IH].
  - cbn [JS.endsWith]. rewrite orb_false_r, String.eqb_eq. split.
    + intros E. exists "". exact E.
    + intros (pre & E). destruct pre; [exact E|discriminate E].
  - cbn [JS.endsWith]. rewrite orb_true_iff, String.eqb_eq, IH. split.
    + intros [E|(pre & E)].
      * exists "". exact E.
      * exists (String c pre). simpl. rewrite E. reflexivity.
    + intros (pre & E). destruct pre as [|d pre].
      * left. exact E.
      * right. simpl in E. injection E as E1 E2. exists pre. exact E2.
Qed.

Lemma endsWith_includes (s a : string) :
  JS.endsWith s a = true -> JS.includes s a = true.
Proof.
  rewrite endsWith_iff, includes_iff. intros (pre & E).
  exists pre, "". rewrite string_app_nil_r. exact E.
Qed.

End Substrings.

(* ================================================================== *)
(** ** Language and test detection of the analyzer                     *)
(* ================================================================== *)

Section Detection.

Import TestAnalyzer Scenarios.


Lemma isLikelyTestFile_indicator (fileName : string) :
  isLikelyTestFile fileName = true ->
  JS.includes fileName "test" = true \/ JS.includes fileName "spec" = true.
Proof.
  unfold isLikelyTestFile. intros H.
  repeat (apply orb_true_iff in H; destruct H as [H|H]);
    try apply endsWith_includes in H;
    first [ left; apply (includes_trans _ _ _ H); reflexivity
          | right; apply (includes_trans _ _ _ H); reflexivity ].
Qed.

Lemma hasTestIndicator_of_likely (fileName : string) :
  isLikelyTestFile fileName = true ->
  JS.some (fun indicator => JS.includes fileName (JS.toLowerCase indicator))
    testIndicators = true.
Proof.
  intros H. apply isLikelyTestFile_indicator in H.
  unfold JS.some. apply existsb_exists. destruct H as [H|H].
  - exists "test". split; [left; reflexivity|exact H].
  - exists "spec". split; [right; left; reflexivity|exact H].
Qed.

(** X20. The alternative detection reports exactly the files whose
    lower-cased path passes the "likely test file" validation, in the
    order of the listing: the indicator check before it never rejects a
    file that the validation accepts. Every entry has confidence 60. *)
Theorem alternative_detection_is_validation (files : list string) :
  map tf_fileName (findTestsAlternativeMethod files)
  = filter (fun file => isLikelyTestFile (JS.toLowerCase file)) files
  /\ Forall (fun t => tf_confidence t = 60%Z)
       (findTestsAlternativeMethod files).
Proof.
  unfold findTestsAlternativeMethod.
  induction files as [|file files [IH1 IH2]]; [split; [reflexivity|constructor]|].
  cbn [flat_map filter].
  destruct (isLikelyTestFile (JS.toLowerCase file)) eqn:E.
  - rewrite (hasTestIndicator_of_likely _ E).
    cbn [andb app map tf_fileName].
    split; [f_equal; exact IH1|].
    constructor; [reflexivity|exact IH2].
  - rewrite andb_false_r. cbn [app]. split; assumption.
Qed.

Lemma dedup_keeps_name (tests : list RelevantTest) :
  forall seen c,
    In c tests -> ~ In (rt_fileName c) seen ->
    exists r, In r (removeDuplicateTests_from seen tests)
              /\ rt_fileName r = rt_fileName c.
Proof.
  induction tests as [|x tests IH]; intros seen c Hin Hn; [destruct Hin|].
  simpl. destruct (existsb (String.eqb (rt_fileName x)) seen) eqn:Ex.
  - destruct Hin as [Hin|Hin].
    + subst x. apply seen_spec in Ex. contradiction.
    + apply IH; assumption.
  - destruct (String.eqb (rt_fileName x) (rt_fileName c)) eqn:Ec.
    + apply String.eqb_eq in Ec. exists x. split; [left; reflexivity|exact Ec].
    + apply String.eqb_neq in Ec. destruct Hin as [Hin|Hin]; [congruence|].
      destruct (IH (rt_fileName x :: seen) c Hin) as (r & Hr & E).
      { intros [H|H]; [congruence|contradiction]. }
      exists r. split; [right; exact Hr|exact E].
Qed.

Lemma root_directory (changedFile : string) :
  JS.has_char "/" changedFile = false ->
  JS.join "/" (JS.slice_init (JS.split "/" changedFile)) = "".
Proof.
  intros H. rewrite (split_no_sep "/" changedFile H). reflexivity.
Qed.

(** X21. A changed file at the root of the repository relates to every
    existing test: its directory is the empty string, which every test
    path includes, so the score is 70 at least and every existing test
    has an entry in the result of [identifyRelevantTests]. *)
Theorem root_level_change_relates_to_every_test
    (codeChanges : list CodeChange) (existingTests : list TestFile)
    (change : CodeChange) (test : TestFile) :
  In change codeChanges ->
  JS.has_char "/" (changedFile_of change) = false ->
  In test existingTests ->
  (70 <= fst (pair_score change test))%Z
  /\ exists r, In r (identifyRelevantTests codeChanges existingTests)
               /\ rt_fileName r = tf_fileName test.
Proof.
  intros Hc Hroot Ht.
  assert (Hs : (70 <= fst (pair_score change test))%Z).
  { unfold pair_score. cbv zeta. rewrite (root_directory _ Hroot).
    rewrite includes_empty.
    destruct (JS.includes _ _); simpl; lia. }
  split; [exact Hs|].
  assert (Hin : In (candidate change test)
                  (relevantTests codeChanges existingTests)).
  { apply relevantTests_In. exists change, test. repeat split; auto. lia. }
  destruct (dedup_keeps_name _ [] _ Hin) as (r & Hr & E); [intros []|].
  exists r. split; [|exact E].
  unfold identifyRelevantTests. rewrite uniqueTests_removeDuplicateTests.
  apply sort_desc_In. exact Hr.
Qed.

Lemma root_level_change_relates_to_every_test_witness :
  exists r,
    In r (identifyRelevantTests [change_of "index.js" "js"] [foo_test])
    /\ rt_fileName r = "src/foo.test.js".
Proof.
  exact (proj2 (root_level_change_relates_to_every_test
                  [change_of "index.js" "js"] [foo_test]
                  (change_of "index.js" "js") foo_test
                  (or_introl eq_refl) eq_refl (or_introl eq_refl))).
Defined.

End Detection.

(* ================================================================== *)
(** ** The threshold of the relevance matcher                          *)
(* ================================================================== *)

Section RelevanceThreshold.

Import TestAnalyzer Scenarios.






End RelevanceThreshold.

(* ================================================================== *)
(** ** The coverage estimate and the analysis of the analyzer          *)
(* ================================================================== *)

Section AnalyzerCoverage.

Import TestAnalyzer Scenarios.

Lemma Math_round_full (n : Z) :
  (0 < n)%Z -> JS.Math_round (inject_Z n / inject_Z n * 100)%Q = 100%Z.
Proof.
  intros Hn. unfold JS.Math_round.
  assert (E : (inject_Z n / inject_Z n * 100 + (1 # 2) == 100 + (1 # 2))%Q).
  { apply Qplus_inj_r. unfold Qdiv. rewrite Qmult_inv_r.
    - reflexivity.
    - intros H. unfold Qeq, inject_Z in H. simpl in H. lia. }
  rewrite (Qfloor_comp _ _ E). reflexivity.
Qed.

Lemma Math_round_none (n : Z) :
  JS.Math_round (inject_Z 0 / inject_Z n * 100)%Q = 0%Z.
Proof.
  unfold JS.Math_round.
  assert (E : (inject_Z 0 / inject_Z n * 100 + (1 # 2) == 0 + (1 # 2))%Q).
  { apply Qplus_inj_r. unfold Qdiv.
    change (inject_Z 0) with 0%Q. rewrite !Qmult_0_l. reflexivity. }
  rewrite (Qfloor_comp _ _ E). reflexivity.
Qed.

(** X22. The estimate of [analyzeCoverage] is 0 without changes, and
    then the risk score is 100. With changes it is 0 without relevant
    tests, 100 with as many tests as changed files, and exactly 95 with
    more tests than changed files: the bonus is capped below the value
    it is added to. Both numbers stay between 0 and 100. *)
Theorem analyzeCoverage_estimate {T} (codeChanges : list CodeChange)
    (relevant : list T) :
  let c := analyzeCoverage codeChanges relevant in
  let n := length codeChanges in
  let t := length relevant in
  (0 <= estimated c <= 100)%Z /\ (0 <= riskScore c <= 100)%Z
  /\ (n = 0%nat -> estimated c = 0%Z /\ riskScore c = 100%Z)
  /\ ((0 < n)%nat -> t = 0%nat -> estimated c = 0%Z)
  /\ ((0 < n)%nat -> t = n -> estimated c = 100%Z)
  /\ ((0 < n)%nat -> (n < t)%nat -> estimated c = 95%Z).
Proof.
  cbv zeta.
  destruct (analyzeCoverage_bounds codeChanges relevant) as [H1 H2].
  split; [exact H1|]. split; [exact H2|].
  unfold analyzeCoverage. cbv zeta. cbn [estimated riskScore].
  split; [|split; [|split]].
  - intros Hn. destruct codeChanges; [|discriminate Hn]. simpl. split; reflexivity.
  - intros Hn Ht. destruct relevant; [|discriminate Ht].
    assert (E : (Z.of_nat (length codeChanges) >? 0)%Z = true)
      by (apply Z.gtb_lt; lia).
    rewrite E. cbn [length Z.of_nat].
    assert (E2 : (0 >? Z.of_nat (length codeChanges))%Z = false).
    { destruct (0 >? Z.of_nat (length codeChanges))%Z eqn:E2; [|reflexivity].
      apply Z.gtb_lt in E2. lia. }
    rewrite E2. rewrite Z.min_l by lia. apply Math_round_none.
  - intros Hn Ht. rewrite Ht.
    assert (E : (Z.of_nat (length codeChanges) >? 0)%Z = true)
      by (apply Z.gtb_lt; lia).
    rewrite E, Z.min_id, Z.gtb_ltb, Z.ltb_irrefl.
    apply Math_round_full. lia.
  - intros Hn Ht.
    assert (E : (Z.of_nat (length codeChanges) >? 0)%Z = true)
      by (apply Z.gtb_lt; lia).
    assert (E2 : (Z.of_nat (length relevant) >?
                  Z.of_nat (length codeChanges))%Z = true)
      by (apply Z.gtb_lt; lia).
    rewrite E, E2.
    rewrite (Z.min_r (Z.of_nat (length relevant))
               (Z.of_nat (length codeChanges))) by lia.
    rewrite Math_round_full by lia. lia.
Qed.

(** X23. [analyzeTests] treats an empty list of changes as the one
    default change of "src/main.js". Its [totalTests] is the number of
    identified tests; it suggests tests only when none was identified,
    and then one for every change. *)
Theorem analyzeTests_suggestions (codeChanges : list CodeChange)
    (files : list string) :
  let result := analyzeTests codeChanges files in
  analyzeTests [] files = analyzeTests [defaultChange] files
  /\ totalTests result = length (identifiedTests result)
  /\ (identifiedTests result <> [] -> suggestedTests result = [])
  /\ (identifiedTests result = [] ->
      length (suggestedTests result)
      = Nat.max 1 (length codeChanges)).
Proof.
  cbv zeta. split; [reflexivity|]. split; [reflexivity|].
  unfold analyzeTests. cbv zeta. cbn [identifiedTests suggestedTests].
  split.
  - intros H. destruct (identifyRelevantTests _ _); [congruence|reflexivity].
  - intros H. rewrite H. unfold generateTestSuggestions. rewrite length_map.
    destruct codeChanges as [|c cs]; [reflexivity|]. simpl. lia.
Qed.

Lemma no_dot_slash_after_dot (name ext : string) :
  JS.no_dot_slash (name ++ "." ++ ext) = false.
Proof.
  induction name as [|c name IH]; [reflexivity|].
  change (String c name ++ "." ++ ext) with (String c (name ++ "." ++ ext)).
  cbn [JS.no_dot_slash]. rewrite IH. apply andb_false_r.
Qed.

Lemma remove_extension_of (name ext : string) :
  JS.is_extension ext = true ->
  JS.remove_extension (name ++ "." ++ ext) = name.
Proof.
  intros Hext. induction name as [|c name IH].
  - simpl. rewrite Hext. reflexivity.
  - change (String c name ++ "." ++ ext)
      with (String c (name ++ "." ++ ext)).
    cbn [JS.remove_extension].
    assert (E : JS.is_extension (name ++ "." ++ ext) = false).
    { unfold JS.is_extension. rewrite no_dot_slash_after_dot.
      apply andb_false_r. }
    rewrite E, andb_false_r, IH. reflexivity.
Qed.

Lemma remove_extension_none (s : string) :
  JS.has_char "." s = false -> JS.remove_extension s = s.
Proof.
  induction s as [|c s IH]; simpl; intros H; [reflexivity|].
  apply orb_false_iff in H. destruct H as [Hc Hs].
  rewrite Hc, (IH Hs). reflexivity.
Qed.

(** X24. [generateTestSuggestions] of the class gives one suggestion
    per change, with confidence 80. For a changed file [name.ext] the
    suggested file is [name.test.js] whatever the extension; for a file
    without any dot it is the file name followed by [.test.js]. *)
Theorem generateTestSuggestions_names (codeChanges : list CodeChange) :
  length (generateTestSuggestions codeChanges) = length codeChanges
  /\ Forall (fun s => sg_confidence s = 80%Z)
       (generateTestSuggestions codeChanges)
  /\ (forall change name ext,
        In change codeChanges ->
        changedFile_of change = name ++ "." ++ ext ->
        JS.is_extension ext = true ->
        In (name ++ ".test.js")
           (map sg_fileName (generateTestSuggestions codeChanges)))
  /\ (forall change,
        In change codeChanges ->
        JS.has_char "." (changedFile_of change) = false ->
        In (changedFile_of change ++ ".test.js")
           (map sg_fileName (generateTestSuggestions codeChanges))).
Proof.
  unfold generateTestSuggestions.
  split; [apply length_map|]. split.
  { apply Forall_forall. intros s Hs. apply in_map_iff in Hs.
    destruct Hs as (c & E & _). subst s. reflexivity. }
  split.
  - intros change name ext Hin E Hext. rewrite map_map. cbn [sg_fileName].
    apply in_map_iff. exists change. split; [|exact Hin].
    rewrite E, (remove_extension_of name ext Hext). reflexivity.
  - intros change Hin Hdot. rewrite map_map. cbn [sg_fileName].
    apply in_map_iff. exists change. split; [|exact Hin].
    rewrite (remove_extension_none _ Hdot). reflexivity.
Qed.

End AnalyzerCoverage.

(* ================================================================== *)
(** ** History, language of a file, extension table                    *)
(* ================================================================== *)

Section HistoryAndTables.

Import Scenarios.

Lemma firstn_cons_firstn {A} (n : nat) (x : A) (l : list A) :
  firstn (S n) (x :: firstn (S n) l) = firstn (S n) (x :: l).
Proof.
  rewrite (firstn_cons n x (firstn (S n) l)), (firstn_cons n x l).
  rewrite firstn_firstn. f_equal. f_equal. lia.
Qed.

Lemma saveToHistory_fold {A} (entries : list A) :
  forall history : list A,
    fold_left BackgroundController.saveToHistory entries
      (Some (firstn 100 history))
    = Some (firstn 100 (rev entries ++ history)).
Proof.
  induction entries as [|e entries IH]; intros history; [reflexivity|].
  cbn [fold_left]. unfold BackgroundController.saveToHistory at 2.
  cbn [BackgroundController.getLocal].
  rewrite (firstn_cons_firstn 99 e history), IH.
  cbn [rev]. rewrite <- app_assoc. reflexivity.
Qed.

(** X25. [saveToHistory] puts the new entry first and keeps at most 100
    entries. After any number of saves the history is the saved
    entries, newest first, followed by what was stored before, cut to
    100. *)
Theorem saveToHistory_keeps_newest_100 {A}
    (stored : option (list A)) (entry : A) (entries : list A) :
  let history := BackgroundController.getLocal stored [] in
  (exists saved,
      BackgroundController.saveToHistory stored entry = Some saved
      /\ hd_error saved = Some entry
      /\ length saved = Nat.min 100 (S (length history)))
  /\ fold_left BackgroundController.saveToHistory (entry :: entries) stored
     = Some (firstn 100 (rev entries ++ entry :: history)).
Proof.
  cbv zeta. split.
  - eexists. split; [reflexivity|]. split; [reflexivity|].
    rewrite length_firstn. reflexivity.
  - cbn [fold_left]. unfold BackgroundController.saveToHistory at 2.
    cbv zeta. apply saveToHistory_fold.
Qed.

Import TestAnalysisService.

Lemma pop_snoc (l : list string) (x : string) :
  JS.pop (l ++ [x]) = Some x.
Proof.
  unfold JS.pop. rewrite last_snoc. destruct l; reflexivity.
Qed.

Lemma detectLanguage_of_extension (name ext : string) :
  JS.has_char "." ext = false ->
  _detectLanguage (name ++ "." ++ ext) =
  match
    find (fun entry =>
            existsb (String.eqb (JS.toLowerCase ext))
              (extensions (snd entry))) testPatterns
  with
  | Some entry => fst entry
  | None => "unknown"
  end.
Proof.
  intros Hext. unfold _detectLanguage.
  rewrite (split_dot_filename name ext Hext), pop_snoc. reflexivity.
Qed.

(** X26. The language of a file depends on its extension alone, in any
    letter case: two names whose extensions agree up to case have the
    same language, and the language is one of the registry or
    "unknown". *)
Theorem detectLanguage_depends_on_extension
    (name1 ext1 name2 ext2 : string) :
  JS.has_char "." ext1 = false ->
  JS.has_char "." ext2 = false ->
  JS.toLowerCase ext1 = JS.toLowerCase ext2 ->
  _detectLanguage (name1 ++ "." ++ ext1)
  = _detectLanguage (name2 ++ "." ++ ext2)
  /\ In (_detectLanguage (name1 ++ "." ++ ext1))
       ("unknown" :: map fst testPatterns).
Proof.
  intros H1 H2 E.
  rewrite (detectLanguage_of_extension name1 ext1 H1).
  rewrite (detectLanguage_of_extension name2 ext2 H2).
  rewrite E. split; [reflexivity|].
  destruct (find _ testPatterns) as [entry|] eqn:Ef.
  - apply find_some in Ef. right. apply in_map. tauto.
  - left. reflexivity.
Qed.

Lemma detectLanguage_depends_on_extension_witness :
  _detectLanguage "src/App.TSX" = _detectLanguage "lib/util.tsx"
  /\ _detectLanguage "src/App.TSX" = "typescript".
Proof.
  destruct (detectLanguage_depends_on_extension "src/App" "TSX"
              "lib/util" "tsx" eq_refl eq_refl eq_refl) as [H _].
  split; [exact H|]. vm_compute. reflexivity.
Defined.

Import Patterns.

Lemma get_push_same (acc : ExtensionMap) (ext : string) (pats : list string) :
  get (push acc ext pats) ext =
  Some (match get acc ext with
        | Some v => v ++ pats
        | None => pats
        end)%list.
Proof.
  unfold get. induction acc as [|[k v] acc IH]; simpl.
  - rewrite String.eqb_refl. reflexivity.
  - destruct (String.eqb k ext) eqn:E; simpl; rewrite E; [reflexivity|].
    exact IH.
Qed.

Lemma get_push_other (acc : ExtensionMap) (ext other : string)
    (pats : list string) :
  other <> ext -> get (push acc ext pats) other = get acc other.
Proof.
  intros Hne. unfold get. induction acc as [|[k v] acc IH]; simpl.
  - apply String.eqb_neq in Hne. rewrite String.eqb_sym, Hne. reflexivity.
  - destruct (String.eqb k ext) eqn:E; simpl.
    + apply String.eqb_eq in E. subst k.
      apply String.eqb_neq in Hne. rewrite String.eqb_sym, Hne. reflexivity.
    + destruct (String.eqb k other); [reflexivity|exact IH].
Qed.

Lemma pushed_step (before : option (list string)) (lang : LanguageConfig)
    (langs : list LanguageConfig) :
  pushed (Some (match before with
                | Some v => v ++ patterns lang
                | None => patterns lang
                end)%list) langs
  = pushed before (lang :: langs).
Proof.
  unfold pushed. destruct before as [v|]; destruct langs; simpl;
    rewrite ?app_nil_r, ?app_assoc; reflexivity.
Qed.

Lemma get_push_extensions (exts : list string) (lang : LanguageConfig) :
  forall acc ext,
    get (fold_left (fun acc e => push acc e (patterns lang)) exts acc) ext
    = pushed (get acc ext)
        (map (fun _ => lang) (filter (String.eqb ext) exts)).
Proof.
  induction exts as [|e exts IH]; intros acc ext.
  - simpl. unfold pushed. destruct (get acc ext); [|reflexivity].
    simpl. rewrite app_nil_r. reflexivity.
  - cbn [fold_left filter]. rewrite IH.
    destruct (String.eqb ext e) eqn:E.
    + apply String.eqb_eq in E. subst e.
      rewrite get_push_same. cbn [map]. apply pushed_step.
    + apply String.eqb_neq in E. rewrite get_push_other by exact E.
      reflexivity.
Qed.

Lemma pushed_app (before : option (list string))
    (l1 l2 : list LanguageConfig) :
  pushed (pushed before l1) l2 = pushed before (l1 ++ l2).
Proof.
  unfold pushed.
  destruct before as [v|]; destruct l1 as [|a l1]; destruct l2 as [|b l2];
    simpl; rewrite ?app_nil_r, ?flat_map_app, ?app_assoc; simpl;
    rewrite ?app_nil_r, ?app_assoc; reflexivity.
Qed.

Lemma get_fold_languages (langs : list LanguageConfig) :
  forall acc ext,
    get (fold_left
           (fun acc lang =>
              fold_left (fun acc e => push acc e (patterns lang))
                (extensions lang) acc)
           langs acc) ext
    = pushed (get acc ext) (languages_of ext langs).
Proof.
  induction langs as [|lang langs IH]; intros acc ext.
  - simpl. unfold pushed. destruct (get acc ext); [|reflexivity].
    simpl. rewrite app_nil_r. reflexivity.
  - cbn [fold_left]. rewrite IH, get_push_extensions, pushed_app.
    reflexivity.
Qed.

(** X27. [FILE_EXTENSIONS] maps every extension of the registry to the
    patterns of the languages that list it, in the order of the
    registry, and has no key for any other extension; its keys are the
    fourteen extensions in order. So the patterns for "jsx" and "mjs"
    are those of javascript, which end in [.js]. *)
Theorem FILE_EXTENSIONS_get (ext : string) :
  get FILE_EXTENSIONS ext =
  match languages_of ext (map snd TEST_PATTERNS) with
  | [] => None
  | langs => Some (flat_map patterns langs)
  end
  /\ map fst FILE_EXTENSIONS =
     flat_map (fun entry => extensions (snd entry)) TEST_PATTERNS
  /\ get FILE_EXTENSIONS "jsx" = get FILE_EXTENSIONS "js".
Proof.
  split; [|split; vm_compute; reflexivity].
  unfold FILE_EXTENSIONS, FILE_EXTENSIONS_of. rewrite get_fold_languages.
  unfold pushed, get. simpl find. cbn [option_map].
  destruct (languages_of ext (map snd TEST_PATTERNS)); reflexivity.
Qed.

End HistoryAndTables.
